(** * living-papers: the document-to-LaTeX output module

    A shallow embedding of the LaTeX output module (the compile entry,
    [resolveTemplate], [loadTemplate], [getDate], [places], [extractNode],
    [extractContent]) and of [util/fs.js], with the properties of the
    specification stated over it.

    JavaScript strings are sequences of code units; they are modelled by
    [string], one [ascii] per code unit.  Objects used as dictionaries and
    [Map]s are [gmap]s.  Exceptions are explicit: a computation ends in a
    [completion], either [Normal] with a value or [Throw] with an error. *)

From Stdlib Require Import String Ascii ZArith.
From stdpp Require Import gmap strings list fin_maps.

Open Scope Z_scope.

(* ===================================================================== *)
(** ** JavaScript values used by the module                               *)
(* ===================================================================== *)

Module JS.

Inductive error :=
| TypeError (msg : string)
| HostError (msg : string).

Inductive completion (A : Type) :=
| Normal (a : A)
| Throw (e : error).
Arguments Normal {A} a.
Arguments Throw {A} e.

#[global] Instance completion_ret : MRet completion := fun A a => Normal a.

#[global] Instance completion_bind : MBind completion := fun A B k c =>
  match c with
  | Normal a => k a
  | Throw e => Throw e
  end.

(** [String.prototype.startsWith(searchString)] *)
Definition startsWith (s searchString : string) : bool :=
  String.prefix searchString s.

(** [String.prototype.indexOf(searchString)]: index of the first
    occurrence, [-1] when there is none. *)
Definition indexOf (s searchString : string) : Z :=
  match String.index 0 searchString s with
  | Some n => Z.of_nat n
  | None => -1
  end.

(** A relative index of [slice] clamped into [0, len]. *)
Definition clamp (len i : Z) : Z :=
  if i <? 0 then Z.max (len + i) 0 else Z.min i len.

(** [String.prototype.slice(start, end)] *)
Definition slice (s : string) (start end_ : Z) : string :=
  let len := Z.of_nat (String.length s) in
  let from := clamp len start in
  let to := clamp len end_ in
  String.substring (Z.to_nat from) (Z.to_nat (Z.max (to - from) 0)) s.

(** White space and line terminators of [String.prototype.trim], in the
    range of one-byte code units: TAB, LF, VT, FF, CR, SP, NBSP. *)
Definition isSpace (c : ascii) : bool :=
  let n := nat_of_ascii c in
  ((9 <=? n)%nat && (n <=? 13)%nat) || (n =? 32)%nat || (n =? 160)%nat.

Fixpoint trimStart (s : string) : string :=
  match s with
  | String c r => if isSpace c then trimStart r else s
  | EmptyString => EmptyString
  end.

Fixpoint trimEnd (s : string) : string :=
  match s with
  | String c r =>
      match trimEnd r with
      | EmptyString => if isSpace c then EmptyString else String c EmptyString
      | r' => String c r'
      end
  | EmptyString => EmptyString
  end.

(** [String.prototype.trim()] *)
Definition trim (s : string) : string := trimEnd (trimStart s).

(** [Array.prototype.join(sep)] on an array of strings. *)
Fixpoint join (sep : string) (l : list string) : string :=
  match l with
  | [] => EmptyString
  | [x] => x
  | x :: r => x +:+ sep +:+ join sep r
  end.

End JS.
Export JS.

(* ===================================================================== *)
(** ** The document tree                                                  *)
(* ===================================================================== *)

(** A node is a text node carrying a literal [value], or a component with
    a [name], a [properties] object and an array of [children]. *)
#[warnings="-register-all"]
Inductive node :=
| TextNode (value : string)
| Component (name : string) (properties : gmap string string) (children : list node).

Module AST.

(* [ast/index.js] is not among the sources at hand.  What the output
   module imports from it follows the specification: the accessors follow
   section 3 ("each node has a name, a mapping of properties, and an
   ordered sequence of children or a single literal value") and
   [visitNodes] follows section 4.3 ("visit every node"). *)

(** [node.name]; [undefined] on a text node. *)
Definition name (n : node) : option string :=
  match n with
  | TextNode _ => None
  | Component nm _ _ => Some nm
  end.

(** [node.value]; [undefined] on a component. *)
Definition value (n : node) : option string :=
  match n with
  | TextNode v => Some v
  | Component _ _ _ => None
  end.

(** Modelled from the spec: [getChildren(node)], the ordered children,
    none for a leaf. *)
Definition getChildren (n : node) : list node :=
  match n with
  | TextNode _ => []
  | Component _ _ ch => ch
  end.

(** Modelled from the spec: [getPropertyValue(node, key)], the value
    stored under [key] or [undefined]. *)
Definition getPropertyValue (n : node) (key : string) : option string :=
  match n with
  | TextNode _ => None
  | Component _ props _ => props !! key
  end.

(** Modelled from the spec: [setValueProperty(node, key, value)] records
    [value] under [key] on the node ("record it on the node as a place
    property"); keys stay unique. *)
Definition setValueProperty (n : node) (key val : string) : node :=
  match n with
  | TextNode v => TextNode v
  | Component nm props ch => Component nm (<[key := val]> props) ch
  end.

Definition withChildren (n : node) (ch : list node) : node :=
  match n with
  | TextNode v => TextNode v
  | Component nm props _ => Component nm props ch
  end.

Section Visit.
Context {S : Type}.

(** A callback reads the node and the state it closes over; it may
    change the node through the property setters (which leave
    [children] alone) and the state, or throw. *)
Variable callback : node -> S -> completion (node * S).

(** Modelled from the spec: [visitNodes(ast, callback)] calls the
    callback on every node of the tree, a node before its children and
    the children in order.  The node after the walk is the node as the
    callback left it, over its visited children. *)
Fixpoint visitNodes (n : node) (s : S) : completion (node * S) :=
  '(n', s1) ← callback n s;
  match n with
  | TextNode _ => Normal (n', s1)
  | Component _ _ ch =>
      '(ch', s2) ←
        (fix visitAll (l : list node) (s : S) : completion (list node * S) :=
           match l with
           | [] => Normal ([], s)
           | c :: r =>
               '(c', s') ← visitNodes c s;
               '(r', s'') ← visitAll r s';
               Normal (c' :: r', s'')
           end) ch s1;
      Normal (withChildren n' ch', s2)
  end.

Fixpoint visitAll (l : list node) (s : S) : completion (list node * S) :=
  match l with
  | [] => Normal ([], s)
  | c :: r =>
      '(c', s') ← visitNodes c s;
      '(r', s'') ← visitAll r s';
      Normal (c' :: r', s'')
  end.
End Visit.

End AST.
Export AST.

(* ===================================================================== *)
(** ** The place resolver                                                 *)
(* ===================================================================== *)

(** A place map entry: the empty placeholder [''] or a figure node. *)
Inductive place :=
| PlaceEmpty
| PlaceFigure (fig : node).

(** [node.children[0].value]: a [TypeError] when there is no first child
    to read [value] from, [undefined] when the first child has no
    [value]. *)
Definition firstChildValue (n : node) : completion (option string) :=
  match n with
  | TextNode _ => Throw (TypeError "node.children is undefined")
  | Component _ _ [] => Throw (TypeError "node.children[0] is undefined")
  | Component _ _ (c :: _) => Normal (value c)
  end.

Definition cmd : string := "\place{".

(** The callback of the first walk of [places]. *)
Definition collectPlace (n : node) (places : gmap string place)
  : completion (node * gmap string place) :=
  if bool_decide (name n ≠ Some "raw") || bool_decide (getPropertyValue n "format" ≠ Some "tex")
  then Normal (n, places)
  else
    text ← firstChildValue n;
    match text with
    | None => Throw (TypeError "text is undefined")
    | Some text =>
        if startsWith text cmd then
          let id := slice text (Z.of_nat (String.length cmd)) (indexOf text "}") in
          Normal (setValueProperty n "place" id, <[id := PlaceEmpty]> places)
        else Normal (n, places)
    end.

(** The callback of the second walk of [places]. *)
Definition bindFigure (n : node) (places : gmap string place)
  : completion (node * gmap string place) :=
  if bool_decide (name n = Some "figure") then
    match getPropertyValue n "id" with
    | Some id =>
        if negb (bool_decide (id = "")) && bool_decide (is_Some (places !! id))
        then Normal (n, <[id := PlaceFigure n]> places)
        else Normal (n, places)
    | None => Normal (n, places)
    end
  else Normal (n, places).

(** [places(ast)]: the place map, together with the tree as the first
    walk leaves it (the walk writes the [place] property on the nodes of
    the caller's tree). *)
Definition places (ast : node) : completion (node * gmap string place) :=
  '(ast1, places) ← visitNodes collectPlace ast ∅;
  if bool_decide (size places ≠ 0%nat) then
    visitNodes bindFigure ast1 places
  else Normal (ast1, places).

Definition rawTex (text : string) : node :=
  Component "raw" {[ "format" := "tex" ]} [TextNode text].

Definition figure (id : string) (ch : list node) : node :=
  Component "figure" {[ "id" := id ]} ch.


(* ===================================================================== *)
(** ** Document order and node-wise descriptions of a walk                *)
(* ===================================================================== *)

(** Every node of the tree, in document order (a node before its
    children, children left to right): the order of the walk. *)
Fixpoint nodes (n : node) : list node :=
  n :: match n with
       | TextNode _ => []
       | Component _ _ ch => flat_map nodes ch
       end.

(** The tree after [mut] has been applied to each of its nodes. *)
Fixpoint treeMap (mut : node -> node) (n : node) : node :=
  match n with
  | TextNode _ => mut n
  | Component _ _ ch => withChildren (mut n) (map (treeMap mut) ch)
  end.

(** The error of the first node of [l] on which [guard] reports one. *)
Fixpoint firstError (guard : node -> option error) (l : list node) : option error :=
  match l with
  | [] => None
  | x :: r => match guard x with Some e => Some e | None => firstError guard r end
  end.

(** The state after [step] has run over the nodes of [l] in order. *)
Definition walk {S : Type} (step : node -> S -> S) (l : list node) (s : S) : S :=
  fold_left (fun s n => step n s) l s.

Definition isRawTex (n : node) : bool :=
  bool_decide (name n = Some "raw") && bool_decide (getPropertyValue n "format" = Some "tex").

(** The error the first callback of [places] throws on a node, if it
    throws. *)
Definition placeGuard (n : node) : option error :=
  if isRawTex n then
    match firstChildValue n with
    | Throw e => Some e
    | Normal None => Some (TypeError "text is undefined")
    | Normal (Some _) => None
    end
  else None.

(** The identifier the first callback reads off a node, if it reads one. *)
Definition placeId (n : node) : option string :=
  if isRawTex n then
    match firstChildValue n with
    | Normal (Some text) =>
        if startsWith text cmd
        then Some (slice text (Z.of_nat (String.length cmd)) (indexOf text "}"))
        else None
    | _ => None
    end
  else None.

Definition mark (n : node) : node :=
  match placeId n with
  | Some id => setValueProperty n "place" id
  | None => n
  end.

Definition claim (n : node) (places : gmap string place) : gmap string place :=
  match placeId n with
  | Some id => <[id := PlaceEmpty]> places
  | None => places
  end.

(** The identifier under which the second callback may bind a node. *)
Definition figureId (n : node) : option string :=
  if bool_decide (name n = Some "figure") then
    match getPropertyValue n "id" with
    | Some id => if bool_decide (id = "") then None else Some id
    | None => None
    end
  else None.

Definition bind (n : node) (places : gmap string place) : gmap string place :=
  match figureId n with
  | Some id => if bool_decide (is_Some (places !! id))
               then <[id := PlaceFigure n]> places else places
  | None => places
  end.

(** The tree as the first walk leaves it. *)
Definition annotate (ast : node) : node := treeMap mark ast.

(** No raw tex node of the tree lacks a literal text as its first child
    (section 3: a raw node holds a single literal value). *)
Definition rawNodesHaveText (ast : node) : Prop :=
  Forall (fun n => placeGuard n = None) (nodes ast).

(** A figure node whose [id] property equals [id]. *)
Definition isFigure (n : node) (id : string) : Prop :=
  name n = Some "figure" /\ getPropertyValue n "id" = Some id.

(** Sample trees. *)
Definition placedArticle : node :=
  Component "article" ∅
    [ Component "section" ∅ [TextNode "Results"; rawTex "\place{figA}"];
      figure "figA" [TextNode "A caption"] ].

Definition unplacedArticle : node :=
  Component "article" ∅
    [ Component "section" ∅ [TextNode "Results"; rawTex "\place{figA}"];
      figure "figB" [TextNode "Another caption"] ].

Definition unclosedArticle : node :=
  Component "article" ∅ [rawTex "\place{figA"; figure "figA" []].

(* ===================================================================== *)
(** ** Values, records and the host                                       *)
(* ===================================================================== *)

Module Author.
Record t := { name : string; affiliation : option string }.
End Author.

(** The values that the render data and [writeFile] handle. *)
Inductive jsvalue :=
| VUndefined
| VNull
| VString (s : string)
| VObject (a : Author.t)
| VArray (l : list Author.t).

(** ToBoolean. *)
Definition truthy (v : jsvalue) : bool :=
  match v with
  | VUndefined | VNull => false
  | VString s => negb (bool_decide (s = ""))
  | VObject _ | VArray _ => true
  end.

(** ToString. *)
Definition toString (v : jsvalue) : string :=
  match v with
  | VUndefined => "undefined"
  | VNull => "null"
  | VString s => s
  | VObject _ => "[object Object]"
  | VArray l => join "," (map (fun _ => "[object Object]") l)
  end.

(** [a || b] *)
Definition or (a b : jsvalue) : jsvalue := if truthy a then a else b.

(** [a + b] where an operand is a string, an object or an array: the
    concatenation of the operands as strings. *)
Definition add (a b : jsvalue) : jsvalue := VString (toString a +:+ toString b).

(** [o[key]] on an object used as a dictionary. *)
Definition get (o : gmap string jsvalue) (key : string) : jsvalue :=
  default VUndefined (o !! key).

Definition ofOption (o : option string) : jsvalue :=
  match o with
  | Some s => VString s
  | None => VUndefined
  end.

Definition LF : string := String (ascii_of_nat 10) EmptyString.

(** A settled promise. *)
Inductive promise (A : Type) :=
| Fulfilled (a : A)
| Rejected (e : error).
Arguments Fulfilled {A} a.
Arguments Rejected {A} e.

Definition fulfilled {A} (p : promise A) : bool :=
  match p with
  | Fulfilled _ => true
  | Rejected _ => false
  end.

(** [Promise.all] over settled promises and plain values ([null] here):
    rejected with the first rejection, in the order of the array, and
    fulfilled otherwise. *)
Fixpoint Promise_all (ps : list (option (promise unit))) : promise unit :=
  match ps with
  | [] => Fulfilled ()
  | Some (Rejected e) :: _ => Rejected e
  | _ :: r => Promise_all r
  end.

(** Calls that leave the module. *)
Inductive call :=
| Mkdir (path : string)
| ReadFile (path : string)
| WriteFile (path : string) (data : jsvalue)
| Copy (src dest : string)
| Pdflatex (dir name : string) (bibtex : bool).

(** What a run leaves behind, in order: the calls made, each with whether
    its promise was fulfilled, and the messages given to the logger. *)
Inductive entry :=
| Sys (c : call) (ok : bool)
| LogDebug (msg : string)
| LogError (msg : string) (err : error).

(** The methods of a [TexFormat] object that the module calls.  [tex]
    gives [undefined] or a string; the others give strings. *)
Record texFormat := {
  tex_tex : option node -> option string;
  tex_string : string -> string;
  tex_vspace : string -> string;
  tex_fragment : node -> string;
  tex_label : node -> string -> string
}.

Module Manifest.
Record t := { template : option string; files : option (list string) }.
End Manifest.

Module Package.
Record t := { template : option string; files : option (list string); dir : string }.
End Package.

(** Everything the module imports and does not define: the file system
    and the typesetter behind [world], node's [path] and [url] helpers,
    [JSON.parse], mustache, the clock, and from this repository
    [TexFormat], [pdflatex], [copy] and [hasClass]. *)
Class Host := {
  world : Type;
  References : Type;
  fs_mkdir : string -> world -> promise unit * world;
  fs_readFile : string -> world -> promise string * world;
  fs_writeFile : string -> jsvalue -> world -> promise unit * world;
  fs_copy : string -> string -> world -> promise unit * world;
  run_pdflatex : string -> string -> bool -> world -> promise unit * world;
  path_join : string -> string -> string;
  path_parse_name : string -> string;
  path_parse_base : string -> string;
  path_relative : string -> string -> string;
  builtinTemplateDir : string -> string;
  JSON_parse : string -> completion Manifest.t;
  mustache_render : string -> gmap string jsvalue -> string * string -> completion string;
  today : string;
  hasClass : node -> string -> bool;
  newTexFormat :
    option References -> gmap string string -> gmap string string ->
    gmap string place -> gmap string string -> texFormat
}.

Module Citations.
Record t `{Host} := { references : option References; bibtex : option (list string) }.
End Citations.

Module Metadata.
Record t := {
  date : option node;
  title : option node;
  author : option (list Author.t);
  title_short : option node;
  author_short : option node;
  keywords : option (list string)
}.
End Metadata.

Module Context.
Record t `{Host} := {
  citations : option Citations.t;
  metadata : Metadata.t;
  inputDir : string;
  inputFile : string;
  outputDir : string;
  tempDir : string
}.
End Context.

Module Options.
Record t := {
  template : option string;
  tags : option (string * string);
  pdf : option bool;
  latexDir : option string;
  vspace : option (gmap string string)
}.
End Options.

(* ===================================================================== *)
(** ** Computations that call the host                                    *)
(* ===================================================================== *)

(** A computation runs from a state of the world to a completion, the
    entries it leaves and the state of the world after it. *)
Definition io `{Host} (A : Type) : Type :=
  world -> completion A * list entry * world.

#[global] Instance io_ret `{Host} : MRet io := fun A a w => (Normal a, [], w).

#[global] Instance io_bind `{Host} : MBind io := fun A B k m w =>
  match m w with
  | (Normal a, t, w1) => let '(r, t', w2) := k a w1 in (r, t ++ t', w2)
  | (Throw e, t, w1) => (Throw e, t, w1)
  end.

Section Compile.
Context {host : Host}.

Definition lift {A} (c : completion A) : io A := fun w => (c, [], w).

(** [await p] *)
Definition await {A} (p : promise A) : io A :=
  match p with
  | Fulfilled a => lift (Normal a)
  | Rejected e => lift (Throw e)
  end.

Definition invoke {A} (c : call) (run : world -> promise A * world) : io (promise A) :=
  fun w => let '(p, w') := run w in (Normal p, [Sys c (fulfilled p)], w').

Definition log (e : entry) : io unit := fun w => (Normal (), [e], w).

(** [try { body } catch (err) { handler }] *)
Definition tryCatch {A} (body : io A) (handler : error -> io A) : io A :=
  fun w =>
    match body w with
    | (Normal a, t, w1) => (Normal a, t, w1)
    | (Throw e, t, w1) => let '(r, t', w2) := handler e w1 in (r, t ++ t', w2)
    end.

Definition result {A} (m : io A) (w : world) : completion A := (m w).1.1.
Definition trace {A} (m : io A) (w : world) : list entry := (m w).1.2.

(** *** util/fs.js *)

Definition mkdirp (path : string) : io (promise unit) :=
  invoke (Mkdir path) (fs_mkdir path).

Definition readFile (path : string) : io (promise string) :=
  invoke (ReadFile path) (fs_readFile path).

(** [data ? fs.writeFile(path, data) : null] *)
Definition writeFile (path : string) (data : jsvalue) : io (option (promise unit)) :=
  if truthy data
  then p ← invoke (WriteFile path data) (fs_writeFile path data); mret (Some p)
  else mret None.

Definition copy (src dest : string) : io (promise unit) :=
  invoke (Copy src dest) (fs_copy src dest).

Definition pdflatex (dir name : string) (bibtex : bool) : io (promise unit) :=
  invoke (Pdflatex dir name bibtex) (run_pdflatex dir name bibtex).

(** *** Template resolution *)

Definition loadTemplate (templateDir : string) : io Package.t :=
  p ← readFile (path_join templateDir "package.json");
  text ← await p;
  pkg ← lift (JSON_parse text);
  mret {| Package.template := Manifest.template pkg;
          Package.files := Manifest.files pkg;
          Package.dir := templateDir |}.

Definition resolveTemplate (id : string) : io Package.t :=
  tryCatch
    (loadTemplate id)
    (fun _ => loadTemplate (builtinTemplateDir id)).

Definition getDate : string := today.

(** *** Special sections *)

Definition extractContent (name : string) (n : node) (tex : texFormat) : string :=
  tex_vspace tex name +:+ trim (tex_fragment tex n) +:+ tex_label tex n "fig".

(** [extractNode(node, tex)]: the name and content of the block the node
    goes to, or [undefined]. *)
Definition extractNode (n : node) (tex : texFormat) : completion (option (string * jsvalue)) :=
  let named (name : option string) :=
    match name with
    | Some name =>
        if negb (bool_decide (name = ""))
        then Normal (Some (name, VString (extractContent name n tex)))
        else Normal None
    | None => Normal None
    end in
  match name n with
  | Some name =>
      if bool_decide (name = "abstract") || bool_decide (name = "acknowledgments")
      then named (Some name)
      else if bool_decide (name = "latex:preamble")
      then content ← firstChildValue n; Normal (Some ("preamble", ofOption content))
      else if bool_decide (name = "figure")
      then named (if hasClass n "teaser" then Some "teaser" else None)
      else named None
  | None => named None
  end.

(** The body of the [forEach] over the top-level children. *)
Definition extractInto (tex : texFormat) (n : node) (data : gmap string jsvalue)
  : completion (gmap string jsvalue) :=
  extract ← extractNode n tex;
  match extract with
  | Some (name, content) =>
      Normal (<[name := add (or (get data name) (VString "")) content]> data)
  | None => Normal data
  end.

Fixpoint forEach {A S} (f : A -> S -> completion S) (l : list A) (s : S) : completion S :=
  match l with
  | [] => Normal s
  | x :: r => s' ← f x s; forEach f r s'
  end.

(** *** The options and what is derived from them *)

Definition templateOf (options : Options.t) : string :=
  default "article" (Options.template options).

Definition tagsOf (options : Options.t) : string * string :=
  default ("<<", ">>") (Options.tags options).

Definition pdfOf (options : Options.t) : bool :=
  default true (Options.pdf options).

Definition latexDirOf (context : Context.t) (options : Options.t) : string :=
  default
    (path_join
       (if pdfOf options then Context.tempDir context else Context.outputDir context)
       "latex")
    (Options.latexDir options).

Definition vspaceOf (options : Options.t) : gmap string string :=
  default ∅ (Options.vspace options).

Definition articleNameOf (context : Context.t) : string :=
  path_parse_name (Context.inputFile context).

(** [citations?.bibtex?.length > 0] *)
Definition bibtexOf (context : Context.t) : bool :=
  match Context.citations context with
  | Some c =>
      match Citations.bibtex c with
      | Some entries => bool_decide (0 < length entries)%nat
      | None => false
      end
  | None => false
  end.

Definition bibEntries (context : Context.t) : list string :=
  match Context.citations context with
  | Some c => default [] (Citations.bibtex c)
  | None => []
  end.

(** [new TexFormat({ references, prefix, classes, places, vspace })] *)
Definition formatter (context : Context.t) (options : Options.t)
    (places : gmap string place) : texFormat :=
  newTexFormat
    (c ← Context.citations context; Citations.references c)
    (list_to_map [("fig", "Figure~"); ("tbl", "Table~"); ("eqn", "Equation~"); ("sec", "\S")])
    (list_to_map [("smallcaps", "textsc"); ("italic", "textit"); ("emph", "emph");
                  ("bold", "textbf"); ("strong", "textbf"); ("demi", "textbf");
                  ("underline", "uline")])
    places
    (vspaceOf options).

(** *** The render data *)

(** [x || d] on the result of [tex.tex]. *)
Definition orString (x : option string) (d : string) : string :=
  match x with
  | Some s => if bool_decide (s = "") then d else s
  | None => d
  end.

Definition unknownAuthor : Author.t :=
  {| Author.name := "Unknown Author"; Author.affiliation := None |}.

(** [metadata.author || [{name: 'Unknown Author'}]] *)
Definition authorOf (metadata : Metadata.t) : list Author.t :=
  default [unknownAuthor] (Metadata.author metadata).

(** The object literal [data], given the trimmed content. *)
Definition marshal (tex : texFormat) (context : Context.t) (options : Options.t)
    (content : string) : gmap string jsvalue :=
  let metadata := Context.metadata context in
  let author := authorOf metadata in
  list_to_map [
    ("date", VString (orString (tex_tex tex (Metadata.date metadata)) getDate));
    ("title", VString (orString (tex_tex tex (Metadata.title metadata)) "Untitled Article"));
    ("author", VArray author);
    ("author_first", from_option VObject VUndefined (author !! 0%nat));
    ("author_rest", VArray (tail author));
    ("author_names", VString (join ", " (map Author.name author)));
    ("title_short", ofOption (tex_tex tex (Metadata.title_short metadata)));
    ("author_short", ofOption (tex_tex tex (Metadata.author_short metadata)));
    ("bibtex", if bibtexOf context
               then VString (articleNameOf context +:+ ".bib") else VUndefined);
    ("keywords", ofOption (join ", " <$> Metadata.keywords metadata));
    ("preamble", VString ("\graphicspath{{"
                          +:+ path_relative (latexDirOf context options) (Context.inputDir context)
                          +:+ "}}" +:+ LF));
    ("content", VString content)
  ].

(** The render data handed to the template: the object literal, then the
    special sections of the top-level children.  [ast] is the tree after
    [places] has walked it. *)
Definition renderData (tex : texFormat) (context : Context.t) (options : Options.t)
    (ast : node) : completion (gmap string jsvalue) :=
  content ← match tex_tex tex (Some ast) with
            | Some s => Normal (trim s)
            | None => Throw (TypeError "tex.tex(ast) is undefined")
            end;
  forEach (extractInto tex) (getChildren ast) (marshal tex context options content).

(** *** The compile entry *)

(** Lines 26-30: create directories. *)
Definition createDirectories (context : Context.t) (options : Options.t) : io unit :=
  d1 ← mkdirp (Context.outputDir context);
  d2 ← mkdirp (latexDirOf context options);
  await (Promise_all [Some d1; Some d2]).

(** Lines 81-84: generate LaTeX content. *)
Definition generate (pkg : Package.t) (data : gmap string jsvalue) (options : Options.t)
  : io string :=
  template ← match Package.template pkg with
             | Some f => mret (path_join (Package.dir pkg) f)
             | None => lift (Throw (TypeError "path.join: the path argument must be a string"))
             end;
  p ← readFile template;
  tmpl ← await p;
  lift (mustache_render tmpl data (tagsOf options)).

(** Lines 86-105: write output LaTeX files to target directory. *)
Definition writeOutput (tex : texFormat) (pkg : Package.t) (content : string)
    (context : Context.t) (options : Options.t) : io unit :=
  let latexDir := latexDirOf context options in
  let articleName := articleNameOf context in
  source ← writeFile (path_join latexDir (articleName +:+ ".tex")) (VString content);
  bib ← (if bibtexOf context
         then b ← writeFile (path_join latexDir (articleName +:+ ".bib"))
                    (VString (tex_string tex (join (LF +:+ LF) (bibEntries context))));
              mret [b]
         else mret []);
  copies ← mapM (fun f => copy (path_join (Package.dir pkg) f)
                               (path_join latexDir (path_parse_base f)))
                (default [] (Package.files pkg));
  await (Promise_all (source :: bib ++ (Some <$> copies))).

(** Lines 13-84: everything up to the rendered content.  Returns the
    formatter, the template package and the content. *)
Definition render (ast : node) (context : Context.t) (options : Options.t)
  : io (texFormat * Package.t * string) :=
  _ ← createDirectories context options;
  '(ast, places) ← lift (places ast);
  let tex := formatter context options places in
  data ← lift (renderData tex context options ast);
  pkg ← resolveTemplate (templateOf options);
  content ← generate pkg data options;
  mret (tex, pkg, content).

(** Lines 13-105: everything before the test of [pdf]. *)
Definition emit (ast : node) (context : Context.t) (options : Options.t) : io string :=
  '(tex, pkg, content) ← render ast context options;
  _ ← writeOutput tex pkg content context options;
  mret content.

(** Lines 107-121: the typeset driver.  [None] is [undefined], the value
    of a call that falls off the end of the function. *)
Definition typeset (context : Context.t) (options : Options.t) : io (option string) :=
  let latexDir := latexDirOf context options in
  let articleName := articleNameOf context in
  let outputDir := Context.outputDir context in
  if pdfOf options then
    tryCatch
      (_ ← log (LogDebug ("Running pdflatex for " +:+ articleName +:+ ".tex"));
       p ← pdflatex latexDir articleName (bibtexOf context);
       _ ← await p;
       c ← copy (path_join latexDir (articleName +:+ ".pdf"))
                (path_join outputDir (articleName +:+ ".pdf"));
       _ ← await c;
       mret (Some (path_join outputDir (articleName +:+ ".pdf"))))
      (fun err =>
         _ ← log (LogError "Compiling latex PDF" err);
         mret None)
  else mret (Some latexDir).

(** The default export. *)
Definition compile (ast : node) (context : Context.t) (options : Options.t)
  : io (option string) :=
  _ ← emit ast context options;
  typeset context options.

End Compile.

(* ===================================================================== *)
(** ** Vocabulary of the statements                                       *)
(* ===================================================================== *)

Section Vocabulary.
Context {host : Host}.

(** The path of the generated source file and of the bibliography file,
    and the text written to the latter. *)
Definition texPath (context : Context.t) (options : Options.t) : string :=
  path_join (latexDirOf context options) (articleNameOf context +:+ ".tex").

Definition bibPath (context : Context.t) (options : Options.t) : string :=
  path_join (latexDirOf context options) (articleNameOf context +:+ ".bib").

Definition bibText (tex : texFormat) (context : Context.t) : string :=
  tex_string tex (join (LF +:+ LF) (bibEntries context)).

(** An invocation of the typesetting compiler. *)
Definition isPdflatex (e : entry) : Prop :=
  match e with
  | Sys (Pdflatex _ _ _) _ => True
  | _ => False
  end.

(** A call to [fs.writeFile]. *)
Definition isWrite (e : entry) : Prop :=
  match e with
  | Sys (WriteFile _ _) _ => True
  | _ => False
  end.

(** Every entry a computation leaves, from any state, satisfies [P]. *)
Definition emits {A} (m : io A) (P : entry -> Prop) : Prop :=
  forall w, Forall P (trace m w).

(** The manifest behind a settled read of a manifest file. *)
Definition manifestOf (p : promise string) : completion Manifest.t :=
  match p with
  | Fulfilled text => JSON_parse text
  | Rejected e => Throw e
  end.

Definition packageOf (m : Manifest.t) (dir : string) : Package.t :=
  {| Package.template := Manifest.template m;
     Package.files := Manifest.files m;
     Package.dir := dir |}.

(** The content extracted from one node for the block [name]. *)
Definition isNamed (name : string) (n : node) : bool :=
  bool_decide (AST.name n = Some name).

Definition concatenation (l : list string) : string :=
  foldr String.append "" l.

(** A top-level raw preamble node has a first child to read. *)
Definition preamblesHaveChild (ast : node) : Prop :=
  Forall (fun n => AST.name n = Some "latex:preamble" -> getChildren n ≠ []) (getChildren ast).

(** The names of the blocks that [extractNode] fills. *)
Definition blocks : list string := ["abstract"; "acknowledgments"; "preamble"; "teaser"].

(** The block a node adds to, as a string: [data[name] || '']. *)
Definition blockOf (data : gmap string jsvalue) (name : string) : string :=
  toString (or (get data name) (VString "")).

(** The author fields of the render data when the placeholder author
    stands in. *)
Definition hasUnknownAuthor (data : gmap string jsvalue) : Prop :=
  data !! "author" = Some (VArray [unknownAuthor]) /\
  data !! "author_first" = Some (VObject unknownAuthor) /\
  data !! "author_rest" = Some (VArray []) /\
  data !! "author_names" = Some (VString "Unknown Author").

End Vocabulary.

(* ===================================================================== *)
(** ** A host to run the model on                                         *)
(* ===================================================================== *)

(** A small host for the examples: files in a dictionary, a typesetter
    that is installed or not, path helpers on ['/'], manifests that hold
    the template file name, a template engine that appends the content to
    the template text (and renders the empty template to the empty
    string, as mustache does), and a formatter that keeps the text. *)
Module Demo.

Record state := { files : gmap string string; texlive : bool }.

Definition write (path data : string) (w : state) : state :=
  {| files := <[path := data]> (files w); texlive := texlive w |}.

Definition read (path : string) (w : state) : promise string * state :=
  match files w !! path with
  | Some s => (Fulfilled s, w)
  | None => (Rejected (HostError ("ENOENT: " +:+ path)), w)
  end.

Definition cp (src dest : string) (w : state) : promise unit * state :=
  match files w !! src with
  | Some s => (Fulfilled (), write dest s w)
  | None => (Rejected (HostError ("ENOENT: " +:+ src)), w)
  end.

Definition typesetter (dir name : string) (bibtex : bool) (w : state) : promise unit * state :=
  if texlive w
  then (Fulfilled (), write (dir +:+ "/" +:+ name +:+ ".pdf") "%PDF" w)
  else (Rejected (HostError "spawn pdflatex ENOENT"), w).

Fixpoint base (s : string) : string :=
  match s with
  | EmptyString => EmptyString
  | String c r =>
      match String.index 0 "/" r with
      | Some _ => base r
      | None => if Ascii.eqb c "/" then r else s
      end
  end.

Fixpoint stem (s : string) : string :=
  match s with
  | EmptyString => EmptyString
  | String c r =>
      match String.index 0 "." r with
      | Some _ => String c (stem r)
      | None => if Ascii.eqb c "." then EmptyString else s
      end
  end.

Definition parseManifest (text : string) : completion Manifest.t :=
  if bool_decide (text = "")
  then Throw (HostError "SyntaxError: Unexpected end of JSON input")
  else Normal {| Manifest.template := Some text; Manifest.files := None |}.

Definition mustache (tmpl : string) (data : gmap string jsvalue) (tags : string * string)
  : completion string :=
  if bool_decide (tmpl = "") then Normal ""
  else Normal (tmpl +:+ toString (get data "content")).

Fixpoint textOf (n : node) : string :=
  match n with
  | TextNode v => v
  | Component _ _ ch => foldr (fun c acc => textOf c +:+ acc) "" ch
  end.

Definition format (references : option unit) (prefix classes : gmap string string)
    (places : gmap string place) (vspace : gmap string string) : texFormat :=
  {| tex_tex := fun o => textOf <$> o;
     tex_string := fun s => s;
     tex_vspace := fun name =>
       match vspace !! name with
       | Some s => "\vspace{" +:+ s +:+ "}"
       | None => ""
       end;
     tex_fragment := fun n => foldr (fun c acc => textOf c +:+ acc) "" (getChildren n);
     tex_label := fun n category =>
       match getPropertyValue n "id" with
       | Some id => "\label{" +:+ category +:+ ":" +:+ id +:+ "}"
       | None => ""
       end |}.

#[local] Instance host : Host := {|
  world := state;
  References := unit;
  fs_mkdir := fun _ w => (Fulfilled (), w);
  fs_readFile := read;
  fs_writeFile := fun path data w => (Fulfilled (), write path (toString data) w);
  fs_copy := cp;
  run_pdflatex := typesetter;
  path_join := fun a b => a +:+ "/" +:+ b;
  path_parse_name := fun p => stem (base p);
  path_parse_base := base;
  path_relative := fun _ to => to;
  builtinTemplateDir := fun id => "/usr/lib/living-papers/latex-templates/" +:+ id;
  JSON_parse := parseManifest;
  mustache_render := mustache;
  today := "November 2, 2026";
  hasClass := fun n c => bool_decide (getPropertyValue n "class" = Some c);
  newTexFormat := format
|}.

Definition article : node :=
  Component "article" ∅
    [ Component "abstract" ∅ [TextNode " We study places. "];
      Component "acknowledgments" ∅ [TextNode "Thanks to A. "];
      Component "p" ∅ [TextNode "Body."; rawTex "\place{figA}"];
      figure "figA" [TextNode "A caption"];
      Component "acknowledgments" {[ "id" := "ack" ]} [TextNode " Thanks to B."] ].

Definition metadata : Metadata.t :=
  {| Metadata.date := None;
     Metadata.title := Some (TextNode "Places");
     Metadata.author := None;
     Metadata.title_short := None;
     Metadata.author_short := None;
     Metadata.keywords := Some ["latex"; "figures"] |}.

Definition context : Context.t :=
  {| Context.citations := Some {| Citations.references := None; Citations.bibtex := Some [] |};
     Context.metadata := metadata;
     Context.inputDir := "/home/me/paper";
     Context.inputFile := "/home/me/paper/places.md";
     Context.outputDir := "/home/me/paper/build";
     Context.tempDir := "/tmp/lpub" |}.

Definition options (pdf : bool) : Options.t :=
  {| Options.template := None;
     Options.tags := None;
     Options.pdf := Some pdf;
     Options.latexDir := None;
     Options.vspace := Some {[ "acknowledgments" := "-1em" ]} |}.

(** A machine with the built-in article template and no typesetter. *)
Definition machine (template : string) : state :=
  {| files := {[ "/usr/lib/living-papers/latex-templates/article/package.json" := "template.tex";
                 "/usr/lib/living-papers/latex-templates/article/template.tex" := template ]};
     texlive := false |}.

(** The formatter that [compile] builds for the sample article. *)
Definition sampleTex : texFormat :=
  formatter context (options true)
    {[ "figA" := PlaceFigure (figure "figA" [TextNode "A caption"]) ]}.

End Demo.

(* ===================================================================== *)
(** ** Further vocabulary                                                 *)
(* ===================================================================== *)

(** The literal text of a raw node: the value of its first child. *)
Definition hasText (n : node) : Prop :=
  exists text, firstChildValue n = Normal (Some text).

(** The character does not occur in the string. *)
Fixpoint absent (c : ascii) (s : string) : Prop :=
  match s with
  | EmptyString => True
  | String x r => x ≠ c /\ absent c r
  end.

Section Blocks.
Context {host : Host}.

(** The block a top-level node goes to, if it goes to one. *)
Definition target (n : node) : option string :=
  if isNamed "abstract" n then Some "abstract"
  else if isNamed "acknowledgments" n then Some "acknowledgments"
  else if isNamed "latex:preamble" n then Some "preamble"
  else if isNamed "figure" n && hasClass n "teaser" then Some "teaser"
  else None.

(** The string a top-level node adds to its block: the literal value of
    its first child for a raw preamble, the extracted content otherwise. *)
Definition contentOf (tex : texFormat) (n : node) : string :=
  match target n with
  | Some name =>
      if bool_decide (name = "preamble")
      then match getChildren n with
           | c :: _ => toString (ofOption (value c))
           | [] => ""
           end
      else extractContent name n tex
  | None => ""
  end.

(** The nodes among [l] that go to the block [name]. *)
Definition targeting (name : string) (l : list node) : list node :=
  filter (fun n => target n = Some name) l.

End Blocks.


(** The string neither begins nor ends with white space. *)
Definition noSpaceAround (s : string) : Prop :=
  (forall a r, s = String a r -> isSpace a = false) /\
  (forall r a, s = r +:+ String a EmptyString -> isSpace a = false).

(** The invocations of the typesetting compiler among the entries. *)
Definition invocations (t : list entry) : list call :=
  omap (fun e => match e with
                 | Sys (Pdflatex dir name bibtex) _ => Some (Pdflatex dir name bibtex)
                 | _ => None
                 end) t.

(** The calls among the entries, fulfilled or not. *)
Definition callsOf (t : list entry) : list call :=
  omap (fun e => match e with Sys c _ => Some c | _ => None end) t.

(** Some call among the entries was rejected. *)
Definition someRejected (t : list entry) : Prop :=
  exists c, Sys c false ∈ t.

Section MoreVocabulary.
Context {host : Host}.

(** The path of the PDF in the working directory and in the output
    directory. *)
Definition pdfSource (context : Context.t) (options : Options.t) : string :=
  path_join (latexDirOf context options) (articleNameOf context +:+ ".pdf").

Definition pdfPath (context : Context.t) : string :=
  path_join (Context.outputDir context) (articleNameOf context +:+ ".pdf").

(** The calls that [writeOutput] issues. *)
Definition outputCalls (tex : texFormat) (pkg : Package.t) (content : string)
    (context : Context.t) (options : Options.t) : list call :=
  (if bool_decide (content = "") then []
   else [WriteFile (texPath context options) (VString content)])
  ++ (if bibtexOf context && negb (bool_decide (bibText tex context = ""))
      then [WriteFile (bibPath context options) (VString (bibText tex context))]
      else [])
  ++ ((fun f => Copy (path_join (Package.dir pkg) f)
                     (path_join (latexDirOf context options) (path_parse_base f)))
        <$> default [] (Package.files pkg)).

End MoreVocabulary.

(** The entries of calls [cs] settled as [ps]. *)
Definition settle (cs : list call) (ps : list (promise unit)) : list entry :=
  zip_with (fun c p => Sys c (fulfilled p)) cs ps.

(** An entry of the steps that only create directories and read files. *)
Definition isSetup (e : entry) : Prop :=
  match e with
  | Sys (Mkdir _) _ | Sys (ReadFile _) _ => True
  | _ => False
  end.

(** A read of a file. *)
Definition isRead (e : entry) : Prop :=
  match e with
  | Sys (ReadFile _) _ => True
  | _ => False
  end.

Section Targets.
Context {host : Host}.

(** Where an entry puts a file: a write or a copy into the latex
    directory, or the copy of the PDF to the output directory. *)
Definition staysInLatexDir (context : Context.t) (options : Options.t) (e : entry) : Prop :=
  match e with
  | Sys (WriteFile path _) _ =>
      exists f, path = path_join (latexDirOf context options) f
  | Sys (Copy src dest) _ =>
      (exists f, dest = path_join (latexDirOf context options) f) \/
      (src = pdfSource context options /\ dest = pdfPath context)
  | _ => True
  end.

End Targets.

(** Further sample trees. *)
Module Samples.

Definition preambleArticle : node :=
  Component "article" ∅
    [ Component "latex:preamble" ∅ [TextNode " \usepackage{a} "];
      Component "p" ∅ [TextNode "Body."];
      Component "latex:preamble" ∅ [Component "em" ∅ [TextNode "x"]] ].

Definition plainArticle : node :=
  Component "article" ∅
    [ Component "p" ∅ [TextNode "Body."];
      figure "figA" [TextNode "A caption"] ].

Definition brokenArticle : node :=
  Component "article" ∅
    [ Component "p" ∅ [TextNode "Body."];
      Component "latex:preamble" ∅ [] ].

Definition rawWithoutText : node :=
  Component "article" ∅ [Component "raw" {[ "format" := "tex" ]} []].

(** The sample context with the given author list. *)
Definition contextWith (authors : option (list Author.t)) : @Context.t Demo.host :=
  {| Context.citations := Context.citations Demo.context;
     Context.metadata :=
       {| Metadata.date := None;
          Metadata.title := Some (TextNode "Places");
          Metadata.author := authors;
          Metadata.title_short := None;
          Metadata.author_short := None;
          Metadata.keywords := None |};
     Context.inputDir := Context.inputDir Demo.context;
     Context.inputFile := Context.inputFile Demo.context;
     Context.outputDir := Context.outputDir Demo.context;
     Context.tempDir := Context.tempDir Demo.context |}.

Definition ada : Author.t :=
  {| Author.name := "Ada"; Author.affiliation := None |}.

Definition grace : Author.t :=
  {| Author.name := "Grace"; Author.affiliation := Some "Navy" |}.

(** The sample machine with the typesetter installed. *)
Definition workshop (template : string) : Demo.state :=
  {| Demo.files := Demo.files (Demo.machine template); Demo.texlive := true |}.

(** A machine without any template. *)
Definition bare : Demo.state :=
  {| Demo.files := ∅; Demo.texlive := false |}.

(** The sample host on a file system that rejects every write. *)
Definition readOnly : Host := {|
  world := Demo.state;
  References := unit;
  fs_mkdir := fun _ w => (Fulfilled (), w);
  fs_readFile := Demo.read;
  fs_writeFile := fun path _ w => (Rejected (HostError ("EROFS: " +:+ path)), w);
  fs_copy := Demo.cp;
  run_pdflatex := Demo.typesetter;
  path_join := fun a b => a +:+ "/" +:+ b;
  path_parse_name := fun p => Demo.stem (Demo.base p);
  path_parse_base := Demo.base;
  path_relative := fun _ to => to;
  builtinTemplateDir := fun id => "/usr/lib/living-papers/latex-templates/" +:+ id;
  JSON_parse := Demo.parseManifest;
  mustache_render := Demo.mustache;
  today := "November 2, 2026";
  hasClass := fun n c => bool_decide (getPropertyValue n "class" = Some c);
  newTexFormat := Demo.format
|}.

Definition readOnlyContext : @Context.t readOnly :=
  {| Context.citations := None;
     Context.metadata := Demo.metadata;
     Context.inputDir := "/home/me/paper";
     Context.inputFile := "/home/me/paper/places.md";
     Context.outputDir := "/home/me/paper/build";
     Context.tempDir := "/tmp/lpub" |}.

(** The built-in article package that the demonstration host resolves. *)
Definition articlePackage : Package.t :=
  {| Package.template := Some "template.tex"; Package.files := None;
     Package.dir := "/usr/lib/living-papers/latex-templates/article" |}.

(** What the demonstration host renders for the sample article. *)
Definition articleContent : string :=
  "T:We study places. Thanks to A. Body.\place{figA}A caption Thanks to B.".

End Samples.

(* ===================================================================== *)
(** * Properties                                                          *)
(* ===================================================================== *)

(** ** Induction on trees *)

Lemma node_ind_nested (P : node -> Prop) :
  (forall v, P (TextNode v)) ->
  (forall nm props ch, Forall P ch -> P (Component nm props ch)) ->
  forall n, P n.
Proof.
  intros Htext Hcomp. fix IH 1. intros [v|nm props ch].
  - apply Htext.
  - apply Hcomp. induction ch as [|c r IHr]; constructor.
    + apply IH.
    + apply IHr.
Qed.

(** ** The walk, node by node *)

Section VisitSpec.
Context {S : Type}.
Variable callback : node -> S -> completion (node * S).
Variable guard : node -> option error.
Variable mut : node -> node.
Variable step : node -> S -> S.

Hypothesis callback_shape : forall n s,
  callback n s =
  match guard n with
  | Some e => Throw e
  | None => Normal (mut n, step n s)
  end.

Lemma firstError_app l1 l2 :
  firstError guard (l1 ++ l2) =
  match firstError guard l1 with Some e => Some e | None => firstError guard l2 end.
Proof.
  induction l1 as [|x l1 IH]; simpl; [done|].
  destruct (guard x); [done|apply IH].
Qed.

Lemma firstError_None l :
  firstError guard l = None <-> Forall (fun n => guard n = None) l.
Proof.
  induction l as [|x l IH]; simpl.
  - split; [constructor|done].
  - rewrite Forall_cons. destruct (guard x) eqn:E.
    + split; [done|]. intros [? _]. done.
    + rewrite IH. tauto.
Qed.

Lemma visitNodes_unfold nm props ch s :
  visitNodes callback (Component nm props ch) s =
  ('(n', s1) ← callback (Component nm props ch) s;
   '(ch', s2) ← visitAll callback ch s1;
   Normal (withChildren n' ch', s2)).
Proof. reflexivity. Qed.

Lemma visitAll_spec ch :
  Forall (fun n => forall s,
    visitNodes callback n s =
    match firstError guard (nodes n) with
    | Some e => Throw e
    | None => Normal (treeMap mut n, walk step (nodes n) s)
    end) ch ->
  forall s,
    visitAll callback ch s =
    match firstError guard (flat_map nodes ch) with
    | Some e => Throw e
    | None => Normal (map (treeMap mut) ch, walk step (flat_map nodes ch) s)
    end.
Proof.
  induction 1 as [|c r Hc _ IH]; intros s; [done|].
  cbn [visitAll flat_map map]. rewrite Hc, firstError_app.
  destruct (firstError guard (nodes c)); [done|].
  cbn. rewrite IH.
  destruct (firstError guard (flat_map nodes r)); [done|].
  cbn. unfold walk. by rewrite fold_left_app.
Qed.

(** The walk as a whole: it throws the error of the first node, in
    document order, on which the callback throws; otherwise it leaves
    the node-wise mutated tree and the state folded over the nodes in
    document order. *)
Lemma visitNodes_spec n : forall s,
  visitNodes callback n s =
  match firstError guard (nodes n) with
  | Some e => Throw e
  | None => Normal (treeMap mut n, walk step (nodes n) s)
  end.
Proof.
  induction n as [v|nm props ch IH] using node_ind_nested; intros s.
  - cbn. rewrite callback_shape. by destruct (guard _).
  - rewrite visitNodes_unfold, callback_shape.
    cbn [nodes firstError]. destruct (guard _); [done|].
    cbn. rewrite (visitAll_spec ch IH).
    by destruct (firstError _ _).
Qed.
End VisitSpec.

(** ** The two walks of [places] *)

Lemma collectPlace_shape n s :
  collectPlace n s =
  match placeGuard n with
  | Some e => Throw e
  | None => Normal (mark n, claim n s)
  end.
Proof.
  unfold collectPlace, placeGuard, mark, claim, placeId, isRawTex.
  repeat case_bool_decide; try done; cbn.
  destruct (firstChildValue n) as [[text|]|e]; cbn; try done.
  by destruct (startsWith text cmd).
Qed.

Lemma bindFigure_shape n s :
  bindFigure n s = Normal (n, bind n s).
Proof.
  unfold bindFigure, bind, figureId.
  destruct (bool_decide (name n = Some "figure")); [|done].
  destruct (getPropertyValue n "id") as [id|]; [|done].
  destruct (bool_decide (id = "")); cbn; [done|].
  by destruct (bool_decide (is_Some (s !! id))).
Qed.

Lemma treeMap_id n : treeMap (fun x => x) n = n.
Proof.
  induction n as [v|nm props ch IH] using node_ind_nested; [done|].
  cbn. f_equal. induction IH as [|c r Hc _ IHr]; [done|].
  cbn. by rewrite Hc, IHr.
Qed.

Lemma bind_empty x : bind x ∅ = ∅.
Proof.
  unfold bind. destruct (figureId x); [|done].
  rewrite lookup_empty. case_bool_decide as H; [by destruct H|done].
Qed.

Lemma walk_bind_empty l : walk bind l ∅ = ∅.
Proof.
  induction l as [|x l IH]; [done|].
  cbn. rewrite bind_empty. apply IH.
Qed.

(** [places] in closed form: it throws on the first malformed raw tex
    node, and otherwise returns the annotated tree and the place map
    obtained by claiming over the tree and then binding over the annotated
    tree, both in document order. *)
Lemma places_spec ast :
  places ast =
  match firstError placeGuard (nodes ast) with
  | Some e => Throw e
  | None =>
      Normal (annotate ast,
              walk bind (nodes (annotate ast)) (walk claim (nodes ast) ∅))
  end.
Proof.
  unfold places.
  rewrite (visitNodes_spec collectPlace placeGuard mark claim collectPlace_shape).
  destruct (firstError placeGuard (nodes ast)); [done|].
  cbn. fold (annotate ast).
  set (m1 := walk claim (nodes ast) ∅).
  case_bool_decide as Hsz.
  - rewrite (visitNodes_spec bindFigure (fun _ => None) (fun x => x) bind)
      by (intros; apply bindFigure_shape).
    replace (firstError (fun _ => None) (nodes (annotate ast))) with (@None error).
    + by rewrite treeMap_id.
    + symmetry. apply firstError_None, Forall_forall. done.
  - assert (m1 = ∅) as -> by (apply map_size_empty_iff; lia).
    by rewrite walk_bind_empty.
Qed.

(** ** The annotated tree *)

Lemma annotate_component nm props ch :
  annotate (Component nm props ch) =
  Component nm
    (match placeId (Component nm props ch) with
     | Some id => <["place" := id]> props
     | None => props
     end)
    (map annotate ch).
Proof.
  unfold annotate at 1. cbn [treeMap]. unfold mark.
  by destruct (placeId _).
Qed.

Lemma value_annotate n : value (annotate n) = value n.
Proof. destruct n; [done|]. by rewrite annotate_component. Qed.

Lemma name_annotate n : name (annotate n) = name n.
Proof. destruct n; [done|]. by rewrite annotate_component. Qed.

Lemma getChildren_annotate n : getChildren (annotate n) = map annotate (getChildren n).
Proof. destruct n; [done|]. by rewrite annotate_component. Qed.

Lemma getPropertyValue_annotate n key :
  key ≠ "place" -> getPropertyValue (annotate n) key = getPropertyValue n key.
Proof.
  intros Hk. destruct n as [v|nm props ch]; [done|].
  rewrite annotate_component. cbn.
  destruct (placeId _); [|done]. by rewrite lookup_insert_ne.
Qed.

Lemma firstChildValue_annotate n : firstChildValue (annotate n) = firstChildValue n.
Proof.
  destruct n as [v|nm props [|c r]]; [done| |]; rewrite annotate_component; [done|].
  cbn. by rewrite value_annotate.
Qed.

Lemma isRawTex_annotate n : isRawTex (annotate n) = isRawTex n.
Proof.
  unfold isRawTex. by rewrite name_annotate, getPropertyValue_annotate.
Qed.

Lemma placeGuard_annotate n : placeGuard (annotate n) = placeGuard n.
Proof.
  unfold placeGuard. by rewrite isRawTex_annotate, firstChildValue_annotate.
Qed.

Lemma placeId_annotate n : placeId (annotate n) = placeId n.
Proof.
  unfold placeId. by rewrite isRawTex_annotate, firstChildValue_annotate.
Qed.

Lemma figureId_annotate n : figureId (annotate n) = figureId n.
Proof.
  unfold figureId. by rewrite name_annotate, getPropertyValue_annotate.
Qed.

Lemma nodes_annotate n : nodes (annotate n) = map annotate (nodes n).
Proof.
  induction n as [v|nm props ch IH] using node_ind_nested; [done|].
  rewrite annotate_component. cbn [nodes map].
  rewrite <- annotate_component. f_equal.
  induction IH as [|c r Hc _ IHr]; [done|].
  cbn. by rewrite map_app, Hc, IHr.
Qed.

Lemma annotate_idemp n : annotate (annotate n) = annotate n.
Proof.
  induction n as [v|nm props ch IH] using node_ind_nested; [done|].
  pose proof (placeId_annotate (Component nm props ch)) as Hp.
  rewrite annotate_component in Hp.
  rewrite (annotate_component nm props ch).
  rewrite annotate_component, Hp.
  f_equal.
  - destruct (placeId (Component nm props ch)); [|done].
    by rewrite insert_insert_eq.
  - rewrite <- (map_id (map annotate ch)) at 2.
    rewrite !map_map. apply map_ext_Forall. done.
Qed.

Lemma firstError_map (guard : node -> option error) (f : node -> node) l :
  (forall n, guard (f n) = guard n) ->
  firstError guard (map f l) = firstError guard l.
Proof.
  intros Hf. induction l as [|x l IH]; [done|].
  cbn. by rewrite Hf, IH.
Qed.

Lemma walk_map {S} (step : node -> S -> S) (f : node -> node) l s :
  (forall n s, step (f n) s = step n s) ->
  walk step (map f l) s = walk step l s.
Proof.
  intros Hf. revert s. induction l as [|x l IH]; intros s; [done|].
  cbn. rewrite Hf. apply IH.
Qed.

Lemma claim_annotate n s : claim (annotate n) s = claim n s.
Proof. unfold claim. by rewrite placeId_annotate. Qed.

(** ** The place map after each walk *)

Lemma walk_snoc {S} (step : node -> S -> S) l x s :
  walk step (l ++ [x]) s = step x (walk step l s).
Proof. unfold walk. by rewrite fold_left_app. Qed.

Lemma walk_claim_hit l m k :
  (exists n, n ∈ l /\ placeId n = Some k) ->
  walk claim l m !! k = Some PlaceEmpty.
Proof.
  induction l as [|x l IH] using rev_ind; intros (n & Hn & Hid).
  - by apply elem_of_nil in Hn.
  - rewrite walk_snoc. unfold claim at 1.
    apply elem_of_app in Hn as [Hn|Hn].
    + destruct (placeId x) as [id|]; [|by eauto].
      destruct (decide (id = k)) as [->|Hne].
      * by rewrite lookup_insert_eq.
      * rewrite lookup_insert_ne by done. eauto.
    + apply list_elem_of_singleton in Hn as ->. rewrite Hid.
      by rewrite lookup_insert_eq.
Qed.

Lemma walk_claim_values l k v :
  walk claim l ∅ !! k = Some v -> v = PlaceEmpty.
Proof.
  induction l as [|x l IH] using rev_ind.
  - cbn. by rewrite lookup_empty.
  - rewrite walk_snoc. unfold claim at 1.
    destruct (placeId x) as [id|]; [|done].
    destruct (decide (id = k)) as [->|Hne].
    + rewrite lookup_insert_eq. congruence.
    + by rewrite lookup_insert_ne.
Qed.

Lemma walk_bind_is_Some l m k :
  is_Some (walk bind l m !! k) <-> is_Some (m !! k).
Proof.
  induction l as [|x l IH] using rev_ind; [done|].
  rewrite walk_snoc, <- IH. unfold bind at 1.
  destruct (figureId x) as [id|]; [|done].
  case_bool_decide as Hin; [|done].
  destruct (decide (id = k)) as [->|Hne].
  - rewrite lookup_insert_eq. split; eauto.
  - by rewrite lookup_insert_ne.
Qed.

Lemma walk_bind_miss l m k :
  (forall n, n ∈ l -> figureId n ≠ Some k) ->
  walk bind l m !! k = m !! k.
Proof.
  induction l as [|x l IH] using rev_ind; intros Hno; [done|].
  rewrite walk_snoc. unfold bind at 1.
  assert (figureId x ≠ Some k) as Hx by (apply Hno, elem_of_app; right; by left).
  rewrite <- IH by (intros n Hn; apply Hno, elem_of_app; by left).
  destruct (figureId x) as [id|]; [|done].
  case_bool_decide; [|done].
  rewrite lookup_insert_ne; [done|congruence].
Qed.

Lemma walk_bind_hit l m k f :
  is_Some (m !! k) ->
  f ∈ l -> figureId f = Some k ->
  (forall g, g ∈ l -> figureId g = Some k -> g = f) ->
  walk bind l m !! k = Some (PlaceFigure f).
Proof.
  intros Hk. induction l as [|x l IH] using rev_ind; intros Hf Hid Huniq.
  - by apply elem_of_nil in Hf.
  - rewrite walk_snoc. unfold bind at 1.
    destruct (decide (figureId x = Some k)) as [Hx|Hx].
    + assert (x = f) as -> by (apply Huniq; [apply elem_of_app; right; by left|done]).
      rewrite Hid.
      rewrite bool_decide_eq_true_2 by (by apply walk_bind_is_Some).
      by rewrite lookup_insert_eq.
    + apply elem_of_app in Hf as [Hf|Hf];
        [|apply list_elem_of_singleton in Hf; congruence].
      assert (walk bind l m !! k = Some (PlaceFigure f)) as <-.
      { apply IH; [done..|]. intros g Hg. apply Huniq, elem_of_app. by left. }
      destruct (figureId x) as [id|]; [|done].
      case_bool_decide; [|done].
      rewrite lookup_insert_ne; [done|congruence].
Qed.
Example slice_ex1 : slice "\place{figA}" 7 (indexOf "\place{figA}" "}") = "figA".
Proof. reflexivity. Qed.

Example slice_ex2 : slice "\place{figA" 7 (indexOf "\place{figA" "}") = "fig".
Proof. reflexivity. Qed.

Example places_ex1 :
  places (Component "article" ∅ [rawTex "\place{figA}"; figure "figA" []])
  = Normal (Component "article" ∅
              [Component "raw" {[ "format" := "tex"; "place" := "figA" ]} [TextNode "\place{figA}"];
               figure "figA" []],
            {[ "figA" := PlaceFigure (figure "figA" []) ]}).
Proof. vm_compute. reflexivity. Qed.


Example slice_ex3 : slice "\place{" 7 (indexOf "\place{" "}") = "".
Proof. reflexivity. Qed.

Example indexOf_ex1 : indexOf "\place{figA" "}" = -1.
Proof. reflexivity. Qed.

Example trim_ex1 : trim "  Thanks to A. " = "Thanks to A.".
Proof. reflexivity. Qed.

Example places_ex2 :
  places unplacedArticle =
  Normal (annotate unplacedArticle, {[ "figA" := PlaceEmpty ]}).
Proof. vm_compute. reflexivity. Qed.

Example places_ex3 :
  places (Component "article" ∅ [Component "raw" {[ "format" := "tex" ]} []])
  = Throw (TypeError "node.children[0] is undefined").
Proof. vm_compute. reflexivity. Qed.

(** ** Claims on the place resolver *)

Lemma figureId_isFigure n k : figureId n = Some k -> isFigure n k.
Proof.
  unfold figureId, isFigure. case_bool_decide; [|done].
  destruct (getPropertyValue n "id") as [id|]; [|done].
  case_bool_decide; [done|]. intros [= ->]. done.
Qed.

Lemma isFigure_figureId n k : k ≠ "" -> isFigure n k -> figureId n = Some k.
Proof.
  intros Hk [Hn Hid]. unfold figureId.
  rewrite bool_decide_eq_true_2, Hid by done.
  by rewrite bool_decide_eq_false_2.
Qed.

(** The first callback on a directive that is never closed: it does not
    throw, and it records the text after the prefix less its last
    character, on the node and in the map. *)
Lemma collectPlace_unclosed n text places :
  isRawTex n = true ->
  firstChildValue n = Normal (Some text) ->
  startsWith text cmd = true ->
  indexOf text "}" = -1 ->
  collectPlace n places =
  Normal (setValueProperty n "place" (slice text 7 (-1)),
          <[slice text 7 (-1) := PlaceEmpty]> places).
Proof.
  intros Hraw Htext Hcmd Hidx. rewrite collectPlace_shape.
  unfold placeGuard, mark, claim, placeId.
  by rewrite Hraw, Htext, Hcmd, Hidx.
Qed.

(** C1 (the code departs from it): a raw tex node holding ["\place{figA"],
    with no closing brace, does not make [places] throw, but the node is
    not treated as having no identifier: the walk records the place
    ["fig"] on the node and adds the entry ["fig"] to the place map. *)
Theorem places_unclosed_directive :
  places unclosedArticle =
  Normal (Component "article" ∅
            [ Component "raw" {[ "format" := "tex"; "place" := "fig" ]}
                [TextNode "\place{figA"];
              figure "figA" [] ],
          {[ "fig" := PlaceEmpty ]}).
Proof. vm_compute. reflexivity. Qed.

(** C2: in a tree whose raw tex nodes hold their text and which contains
    a raw tex node with text ["\place{figA}"], [places] returns a map that
    sends ["figA"] to the figure node with id ["figA"] (the node as it
    stands in the tree after the first walk) when the tree has one, and to
    the empty placeholder when no figure node has that id. *)
Theorem places_figA ast r :
  rawNodesHaveText ast ->
  r ∈ nodes ast ->
  name r = Some "raw" ->
  getPropertyValue r "format" = Some "tex" ->
  firstChildValue r = Normal (Some "\place{figA}") ->
  exists m,
    places ast = Normal (annotate ast, m) /\
    (forall fig,
        fig ∈ nodes ast -> isFigure fig "figA" ->
        (forall g, g ∈ nodes ast -> isFigure g "figA" -> g = fig) ->
        m !! "figA" = Some (PlaceFigure (annotate fig))) /\
    ((forall g, g ∈ nodes ast -> ~ isFigure g "figA") ->
     m !! "figA" = Some PlaceEmpty).
Proof.
  intros Hwf Hr Hname Hformat Htext.
  assert (placeId r = Some "figA") as Hid.
  { unfold placeId, isRawTex.
    rewrite !bool_decide_eq_true_2 by done. cbn. by rewrite Htext. }
  assert (walk claim (nodes ast) ∅ !! "figA" = Some PlaceEmpty) as Hclaimed
    by (apply walk_claim_hit; eauto).
  eexists. split; [|split].
  - rewrite places_spec.
    by rewrite (proj2 (firstError_None placeGuard (nodes ast)) Hwf).
  - intros fig Hfig Hisfig Huniq.
    rewrite nodes_annotate. apply walk_bind_hit.
    + by rewrite Hclaimed.
    + by apply list_elem_of_fmap_2.
    + rewrite figureId_annotate. by apply isFigure_figureId.
    + intros g' Hg' Hidg'.
      apply list_elem_of_fmap in Hg' as (g & -> & Hg).
      rewrite figureId_annotate in Hidg'.
      f_equal. apply Huniq; [done|]. by apply figureId_isFigure.
  - intros Hnone. rewrite walk_bind_miss; [done|].
    intros g' Hg' Hidg'. rewrite nodes_annotate in Hg'.
    apply list_elem_of_fmap in Hg' as (g & -> & Hg).
    rewrite figureId_annotate in Hidg'.
    by apply (Hnone g), figureId_isFigure.
Qed.

Lemma places_figA_witness :
  (exists m,
      places placedArticle = Normal (annotate placedArticle, m) /\
      m !! "figA" = Some (PlaceFigure (figure "figA" [TextNode "A caption"]))) /\
  (exists m,
      places unplacedArticle = Normal (annotate unplacedArticle, m) /\
      m !! "figA" = Some PlaceEmpty).
Proof.
  split.
  - destruct (places_figA placedArticle (rawTex "\place{figA}"))
      as (m & Hrun & Hbound & _).
    + unfold rawNodesHaveText. cbn. repeat constructor.
    + cbn. do 3 right. left.
    + reflexivity.
    + reflexivity.
    + reflexivity.
    + exists m. split; [exact Hrun|].
      apply (Hbound (figure "figA" [TextNode "A caption"])).
      * cbn. do 5 right. left.
      * split; reflexivity.
      * intros g Hg [Hn Hid]. cbn in Hg.
        repeat (apply elem_of_cons in Hg as [->|Hg];
                [first [reflexivity | discriminate Hn]|]).
        inversion Hg.
  - destruct (places_figA unplacedArticle (rawTex "\place{figA}"))
      as (m & Hrun & _ & Hempty).
    + unfold rawNodesHaveText. cbn. repeat constructor.
    + cbn. do 3 right. left.
    + reflexivity.
    + reflexivity.
    + reflexivity.
    + exists m. split; [exact Hrun|].
      apply Hempty. intros g Hg [Hn Hid]. cbn in Hg.
      repeat (apply elem_of_cons in Hg as [->|Hg];
              [first [discriminate Hn | discriminate Hid]|]).
      inversion Hg.
Defined.

(** C7: [places] is idempotent.  When a run returns, a second run on the
    tree that the first run left returns the same tree and the same place
    map. *)
Theorem places_idempotent ast ast' m :
  places ast = Normal (ast', m) ->
  places ast' = Normal (ast', m).
Proof.
  rewrite !places_spec.
  destruct (firstError placeGuard (nodes ast)) eqn:Hwf; [done|].
  intros [= <- <-].
  rewrite annotate_idemp, nodes_annotate.
  rewrite firstError_map, Hwf by apply placeGuard_annotate.
  by rewrite (walk_map claim) by apply claim_annotate.
Qed.

Lemma places_idempotent_witness :
  places placedArticle =
    Normal (annotate placedArticle,
            {[ "figA" := PlaceFigure (figure "figA" [TextNode "A caption"]) ]}) /\
  places (annotate placedArticle) =
    Normal (annotate placedArticle,
            {[ "figA" := PlaceFigure (figure "figA" [TextNode "A caption"]) ]}).
Proof.
  assert (places placedArticle =
    Normal (annotate placedArticle,
            {[ "figA" := PlaceFigure (figure "figA" [TextNode "A caption"]) ]})) as H
    by (vm_compute; reflexivity).
  split; [exact H|].
  exact (places_idempotent placedArticle _ _ H).
Defined.

(** ** Runs of computations *)

Section Runs.
Context {host : Host}.

Lemma run_bind {A B} (m : io A) (k : A -> io B) w :
  (m ≫= k) w =
  match m w with
  | (Normal a, t, w1) => let '(r, t', w2) := k a w1 in (r, t ++ t', w2)
  | (Throw e, t, w1) => (Throw e, t, w1)
  end.
Proof. reflexivity. Qed.

Lemma run_ret {A} (a : A) w : (mret a : io A) w = (Normal a, [], w).
Proof. reflexivity. Qed.

Lemma bind_inv {A B} (m : io A) (k : A -> io B) w r t w' :
  (m ≫= k) w = (r, t, w') ->
  (exists a t1 w1 t2,
      m w = (Normal a, t1, w1) /\ k a w1 = (r, t2, w') /\ t = t1 ++ t2) \/
  (exists e, m w = (Throw e, t, w') /\ r = Throw e).
Proof.
  rewrite run_bind. destruct (m w) as [[[a|e] t1] w1].
  - destruct (k a w1) as [[r2 t2] w2] eqn:Hk. intros [= <- <- <-].
    left. by exists a, t1, w1, t2.
  - intros [= <- <- <-]. right. by exists e.
Qed.

Lemma emits_mono {A} (m : io A) (P Q : entry -> Prop) :
  (forall e, P e -> Q e) -> emits m P -> emits m Q.
Proof. intros HPQ Hm w. eapply Forall_impl; [apply Hm|done]. Qed.

Lemma emits_ret {A} (a : A) P : emits (mret a) P.
Proof. intros w. constructor. Qed.

Lemma emits_lift {A} (c : completion A) P : emits (lift c) P.
Proof. intros w. constructor. Qed.

Lemma emits_await {A} (p : promise A) P : emits (await p) P.
Proof. destruct p; apply emits_lift. Qed.

Lemma emits_invoke {A} c (run : world -> promise A * world) (P : entry -> Prop) :
  (forall ok, P (Sys c ok)) -> emits (invoke c run) P.
Proof.
  intros Hc w. unfold trace, invoke. destruct (run w) as [p w1].
  cbn. by constructor.
Qed.

Lemma emits_log e (P : entry -> Prop) : P e -> emits (log e) P.
Proof. intros He w. cbn. by constructor. Qed.

Lemma emits_bind {A B} (m : io A) (k : A -> io B) P :
  emits m P -> (forall a, emits (k a) P) -> emits (m ≫= k) P.
Proof.
  intros Hm Hk w. unfold trace. rewrite run_bind.
  specialize (Hm w). unfold trace in Hm.
  destruct (m w) as [[[a|e] t1] w1]; cbn in *; [|done].
  specialize (Hk a w1). unfold trace in Hk.
  destruct (k a w1) as [[r2 t2] w2]; cbn in *.
  by apply Forall_app.
Qed.

Lemma emits_tryCatch {A} (body : io A) handler P :
  emits body P -> (forall e, emits (handler e) P) -> emits (tryCatch body handler) P.
Proof.
  intros Hm Hk w. unfold trace, tryCatch.
  specialize (Hm w). unfold trace in Hm.
  destruct (body w) as [[[a|e] t1] w1]; cbn in *; [done|].
  specialize (Hk e w1). unfold trace in Hk.
  destruct (handler e w1) as [[r2 t2] w2]; cbn in *.
  by apply Forall_app.
Qed.

Lemma emits_mapM {A B} (f : A -> io B) l P :
  (forall a, emits (f a) P) -> emits (mapM f l) P.
Proof.
  intros Hf. induction l as [|x l IH]; cbn.
  - apply emits_ret.
  - apply emits_bind; [apply Hf|]. intros b.
    apply emits_bind; [apply IH|]. intros bs. apply emits_ret.
Qed.

(** ** [writeFile] *)

Lemma writeFile_truthy path data w :
  truthy data = true ->
  writeFile path data w =
  let '(p, w') := fs_writeFile path data w in
  (Normal (Some p), [Sys (WriteFile path data) (fulfilled p)], w').
Proof.
  intros Ht. unfold writeFile. rewrite Ht, run_bind. unfold invoke.
  by destruct (fs_writeFile path data w).
Qed.

Lemma writeFile_falsy path data w :
  truthy data = false -> writeFile path data w = (Normal None, [], w).
Proof. intros Ht. unfold writeFile. by rewrite Ht. Qed.

Lemma truthy_VString s : truthy (VString s) = true <-> s ≠ "".
Proof. cbn. case_bool_decide; naive_solver. Qed.

(** ** Template resolution *)

Lemma loadTemplate_run dir w :
  loadTemplate dir w =
  let '(p, w') := fs_readFile (path_join dir "package.json") w in
  (m ← manifestOf p; Normal (packageOf m dir),
   [Sys (ReadFile (path_join dir "package.json")) (fulfilled p)], w').
Proof.
  unfold loadTemplate. rewrite run_bind. unfold readFile, invoke.
  destruct (fs_readFile _ w) as [[text|e] w1]; [|done].
  rewrite run_bind. cbn. rewrite run_bind. unfold lift.
  by destruct (JSON_parse text).
Qed.

End Runs.

Section Driver.
Context {host : Host}.

Ltac emits_step :=
  first
    [ apply emits_ret
    | apply emits_lift
    | apply emits_await
    | apply emits_log
    | apply emits_invoke; intros ?
    | apply emits_mapM; intros ?
    | apply emits_tryCatch; [|intros ?]
    | apply emits_bind; [|intros ?]
    | match goal with
      | |- emits (let '(_, _) := ?x in _) _ => destruct x
      | |- emits (match ?x with _ => _ end) _ => destruct x
      | |- emits (if ?b then _ else _) _ => destruct b
      end ].

Ltac emits_auto := repeat emits_step; cbn; try tauto.

(** ** What each phase leaves behind *)

Lemma resolveTemplate_emits id :
  emits (resolveTemplate id) (fun e => ~ isPdflatex e /\ ~ isWrite e).
Proof. unfold resolveTemplate, loadTemplate, readFile. emits_auto. Qed.

Lemma render_emits ast context options :
  emits (render ast context options) (fun e => ~ isPdflatex e /\ ~ isWrite e).
Proof.
  unfold render. apply emits_bind.
  { unfold createDirectories, mkdirp. emits_auto. }
  intros _. apply emits_bind; [apply emits_lift|]. intros [ast1 pl].
  apply emits_bind; [apply emits_lift|]. intros data.
  apply emits_bind; [apply resolveTemplate_emits|]. intros pkg.
  unfold generate, readFile. emits_auto.
Qed.

Lemma writeOutput_emits tex pkg content context options :
  emits (writeOutput tex pkg content context options) (fun e => ~ isPdflatex e).
Proof. unfold writeOutput, writeFile, copy. emits_auto. Qed.

Lemma Promise_all_fulfilled ps p :
  Promise_all ps = Fulfilled () -> Some p ∈ ps -> fulfilled p = true.
Proof.
  induction ps as [|x ps IH]; intros Hall Hin.
  - by apply elem_of_nil in Hin.
  - apply elem_of_cons in Hin as [<-|Hin].
    + by destruct p.
    + apply IH; [|done]. by destruct x as [[|]|].
Qed.

Lemma await_run {A} (p : promise A) w :
  await p w =
  (match p with Fulfilled a => Normal a | Rejected e => Throw e end, [], w).
Proof. by destruct p. Qed.

Lemma writeFile_cases path s w :
  (s = "" /\ writeFile path (VString s) w = (Normal None, [], w)) \/
  (s ≠ "" /\ exists p w',
      writeFile path (VString s) w =
      (Normal (Some p), [Sys (WriteFile path (VString s)) (fulfilled p)], w')).
Proof.
  destruct (decide (s = "")) as [->|Hs].
  - left. split; [done|]. by apply writeFile_falsy.
  - right. split; [done|].
    rewrite writeFile_truthy by (by apply truthy_VString).
    destruct (fs_writeFile path (VString s) w) as [p w1]. by exists p, w1.
Qed.

Lemma copies_run pkg context options l w :
  exists ps t w',
    mapM (fun f => copy (path_join (Package.dir pkg) f)
                        (path_join (latexDirOf context options) (path_parse_base f))) l w
    = (Normal ps, t, w') /\
    Forall (fun e => ~ isWrite e) t.
Proof.
  revert w. induction l as [|x l IH]; intros w.
  - exists [], [], w. by split.
  - cbn [mapM]. rewrite run_bind. unfold copy at 1, invoke at 1.
    destruct (fs_copy _ _ w) as [p w1].
    rewrite run_bind. destruct (IH w1) as (ps & t & w2 & -> & Ht).
    rewrite run_ret. eexists _, _, _. split; [done|].
    rewrite app_nil_r. constructor; [|done]. cbn. tauto.
Qed.

(** The entries of [writeOutput]: the write of the source unless the
    content is empty, the write of the bibliography when there are
    entries and their text is not empty, then the copies; and every write
    was fulfilled when [writeOutput] completes normally. *)
Lemma writeOutput_inv tex pkg content context options w r t w' :
  writeOutput tex pkg content context options w = (r, t, w') ->
  exists src bib copies,
    t = src ++ bib ++ copies /\
    Forall (fun e => ~ isWrite e) copies /\
    ((content = "" /\ src = []) \/
     (content ≠ "" /\ exists ok,
         src = [Sys (WriteFile (texPath context options) (VString content)) ok] /\
         (r = Normal () -> ok = true))) /\
    (((bibtexOf context = false \/ bibText tex context = "") /\ bib = []) \/
     (bibtexOf context = true /\ bibText tex context ≠ "" /\ exists ok,
         bib = [Sys (WriteFile (bibPath context options) (VString (bibText tex context))) ok] /\
         (r = Normal () -> ok = true))).
Proof.
  unfold writeOutput. intros Hrun.
  apply bind_inv in Hrun as [(src & t1 & w1 & t2 & Hsrc & Hrun & ->)|(e & Hsrc & _)];
    [|destruct (writeFile_cases (texPath context options) content w)
        as [[_ Hw]|(_ & p & wp & Hw)]; unfold texPath in Hw; congruence].
  apply bind_inv in Hrun as [(bib & t3 & w2 & t4 & Hbib & Hrun & ->)|(e & Hbib & _)].
  2: { destruct (bibtexOf context); [|done].
       apply bind_inv in Hbib as [(? & ? & ? & ? & _ & [=] & _)|(? & Hbib & _)].
       destruct (writeFile_cases (bibPath context options) (bibText tex context) w1)
         as [[_ Hw]|(_ & p & wp & Hw)]; unfold bibPath, bibText in Hw; congruence. }
  apply bind_inv in Hrun as [(copies & t5 & w3 & t6 & Hcp & Hrun & ->)|(e & Hcp & _)];
    [|destruct (copies_run pkg context options (default [] (Package.files pkg)) w2)
        as (? & ? & ? & Hc & _); congruence].
  rewrite await_run in Hrun.
  destruct (copies_run pkg context options (default [] (Package.files pkg)) w2)
    as (ps & tc & wc & Hc & Hcopies).
  rewrite Hc in Hcp. injection Hcp as <- <- <-.
  injection Hrun as <- <- <-.
  assert (forall p, Some p ∈ src :: bib ++ (Some <$> ps) ->
          match Promise_all (src :: bib ++ (Some <$> ps)) with
          | Fulfilled a => Normal a | Rejected e => Throw e end = Normal () ->
          fulfilled p = true) as Hok.
  { intros p Hp Hn. apply (Promise_all_fulfilled (src :: bib ++ (Some <$> ps))); [|done].
    by destruct (Promise_all _) as [[]|]. }
  exists t1, t3, tc. rewrite app_nil_r. split; [done|]. split; [done|]. split.
  - destruct (writeFile_cases (texPath context options) content w)
      as [[-> Hw]|(Hne & p & wp & Hw)]; unfold texPath in Hw;
      rewrite Hw in Hsrc; injection Hsrc as <- <- <-; [by left|].
    right. split; [done|]. eexists. split; [done|].
    apply Hok. by left.
  - destruct (bibtexOf context) eqn:Hb.
    + apply bind_inv in Hbib as [(b & tb & wb & tb' & Hb1 & [= <- <- <-] & ->)|(? & ? & [=])].
      destruct (writeFile_cases (bibPath context options) (bibText tex context) w1)
        as [[Hempty Hw]|(Hne & p & wp & Hw)]; unfold bibPath, bibText in Hw;
        rewrite Hw in Hb1; injection Hb1 as <- <- <-.
      * left. split; [by right|done].
      * right. split; [done|]. split; [done|]. eexists. split; [done|].
        apply Hok. right. apply elem_of_app. left. by left.
    + injection Hbib as <- <- <-. left. split; [by left|done].
Qed.

(** ** The typeset driver *)

Lemma typeset_without_pdf context options w :
  pdfOf options = false ->
  typeset context options w = (Normal (Some (latexDirOf context options)), [], w).
Proof. intros Hpdf. unfold typeset. by rewrite Hpdf. Qed.

Lemma typeset_with_pdf context options w :
  pdfOf options = true ->
  let latexDir := latexDirOf context options in
  let articleName := articleNameOf context in
  let pdfPath := path_join (Context.outputDir context) (articleName +:+ ".pdf") in
  let debug := LogDebug ("Running pdflatex for " +:+ articleName +:+ ".tex") in
  let call := Pdflatex latexDir articleName (bibtexOf context) in
  typeset context options w =
  match run_pdflatex latexDir articleName (bibtexOf context) w with
  | (Rejected e, w1) =>
      (Normal None, [debug; Sys call false; LogError "Compiling latex PDF" e], w1)
  | (Fulfilled _, w1) =>
      match fs_copy (path_join latexDir (articleName +:+ ".pdf")) pdfPath w1 with
      | (Fulfilled _, w2) =>
          (Normal (Some pdfPath),
           [debug; Sys call true;
            Sys (Copy (path_join latexDir (articleName +:+ ".pdf")) pdfPath) true], w2)
      | (Rejected e, w2) =>
          (Normal None,
           [debug; Sys call true;
            Sys (Copy (path_join latexDir (articleName +:+ ".pdf")) pdfPath) false;
            LogError "Compiling latex PDF" e], w2)
      end
  end.
Proof.
  intros Hpdf. cbn zeta. unfold typeset. rewrite Hpdf.
  unfold tryCatch. rewrite run_bind. cbn [log].
  rewrite run_bind. unfold pdflatex, invoke.
  destruct (run_pdflatex _ _ _ w) as [[[]|e] w1]; [|done].
  rewrite run_bind, await_run, run_bind. unfold copy, invoke.
  by destruct (fs_copy _ _ w1) as [[[]|e] w2].
Qed.

End Driver.

Section Entry.
Context {host : Host}.

(** ** Runs of the compile entry *)

Lemma typeset_emits context options :
  emits (typeset context options) (fun e => ~ isWrite e).
Proof.
  intros w. unfold trace. destruct (pdfOf options) eqn:Hpdf.
  - rewrite typeset_with_pdf by done. cbn zeta.
    destruct (run_pdflatex _ _ _ w) as [[[]|e] w1].
    + destruct (fs_copy _ _ w1) as [[[]|e] w2]; cbn; repeat constructor; tauto.
    + cbn. repeat constructor; tauto.
  - rewrite typeset_without_pdf by done. constructor.
Qed.

Lemma emit_inv ast context options w r t w' :
  emit ast context options w = (r, t, w') ->
  (exists tex pkg content tr wr r' tw,
      render ast context options w = (Normal (tex, pkg, content), tr, wr) /\
      writeOutput tex pkg content context options wr = (r', tw, w') /\
      t = tr ++ tw /\
      r = (_ ← r'; Normal content)) \/
  (exists e, render ast context options w = (Throw e, t, w') /\ r = Throw e).
Proof.
  unfold emit. intros Hrun.
  apply bind_inv in Hrun as [([[tex pkg] content] & tr & wr & t2 & Hr & Hrun & ->)|Hthrow];
    [|by right].
  left. exists tex, pkg, content, tr, wr.
  apply bind_inv in Hrun as [([] & tw & ww & t3 & Hw & [= <- <- <-] & ->)|(e & Hw & ->)].
  - exists (Normal ()), tw. by rewrite app_nil_r.
  - by exists (Throw e), t2.
Qed.

(** Every [fs.writeFile] call of a run writes the rendered content, when
    it is not empty, to the source path, or the bibliography text, when
    there are entries and the text is not empty, to the bibliography
    path. *)
Lemma compile_writes ast context options w p d ok :
  Sys (WriteFile p d) ok ∈ trace (compile ast context options) w ->
  exists tex pkg content,
    result (render ast context options) w = Normal (tex, pkg, content) /\
    ((p = texPath context options /\ d = VString content /\ content ≠ "") \/
     (p = bibPath context options /\ d = VString (bibText tex context) /\
      bibtexOf context = true /\ bibText tex context ≠ "")).
Proof.
  unfold trace, result.
  destruct (compile ast context options w) as [[r t] w'] eqn:Hrun. cbn.
  intros Hin.
  assert (exists re te we, emit ast context options w = (re, te, we) /\
                           Sys (WriteFile p d) ok ∈ te) as (re & te & we & Hemit & Hte).
  { unfold compile in Hrun.
    apply bind_inv in Hrun as [(c & te & we & tt & He & Ht & ->)|(e & He & _)];
      [|by eauto].
    exists (Normal c), te, we. split; [done|].
    apply elem_of_app in Hin as [Hin|Hin]; [done|].
    pose proof (typeset_emits context options we) as Hty.
    unfold trace in Hty. rewrite Ht in Hty. cbn in Hty.
    rewrite Forall_forall in Hty. by destruct (Hty _ Hin). }
  pose proof (render_emits ast context options w) as Hre. unfold trace in Hre.
  apply emit_inv in Hemit
    as [(tex & pkg & content & tr & wr & r' & tw & Hr & Hw & -> & _)|(e & Hr & _)].
  2: { rewrite Hr in Hre. cbn in Hre. rewrite Forall_forall in Hre.
       destruct (Hre _ Hte) as [_ Hnw]. by destruct Hnw. }
  rewrite Hr in *. cbn in Hre. exists tex, pkg, content. split; [done|].
  apply elem_of_app in Hte as [Hte|Hte].
  { rewrite Forall_forall in Hre. destruct (Hre _ Hte) as [_ Hnw]. by destruct Hnw. }
  apply writeOutput_inv in Hw as (src & bib & copies & -> & Hcp & Hsrc & Hbib).
  rewrite !elem_of_app in Hte. destruct Hte as [Hte|[Hte|Hte]].
  - destruct Hsrc as [[_ ->]|(Hne & ok' & -> & _)]; [by apply elem_of_nil in Hte|].
    apply list_elem_of_singleton in Hte as [= -> -> ->]. by left.
  - destruct Hbib as [[_ ->]|(Hb & Hne & ok' & -> & _)]; [by apply elem_of_nil in Hte|].
    apply list_elem_of_singleton in Hte as [= -> -> ->]. by right.
  - rewrite Forall_forall in Hcp. by destruct (Hcp _ Hte).
Qed.

Lemma emit_emits ast context options :
  emits (emit ast context options) (fun e => ~ isPdflatex e).
Proof.
  unfold emit. apply emits_bind.
  - eapply emits_mono; [|apply render_emits]. cbn. tauto.
  - intros [[tex pkg] content]. apply emits_bind; [apply writeOutput_emits|].
    intros _. apply emits_ret.
Qed.


(** C4: with [pdf: false] the typesetting compiler is never invoked, and
    the call returns the latex directory; the only other outcome is an
    error thrown by a step before the test of [pdf], which the call
    throws on. *)
Theorem compile_without_pdf ast context options w :
  Options.pdf options = Some false ->
  Forall (fun e => ~ isPdflatex e) (trace (compile ast context options) w) /\
  (result (compile ast context options) w = Normal (Some (latexDirOf context options)) \/
   exists e, result (emit ast context options) w = Throw e /\
             result (compile ast context options) w = Throw e).
Proof.
  intros Hpdf.
  assert (pdfOf options = false) as Hoff by (unfold pdfOf; by rewrite Hpdf).
  pose proof (emit_emits ast context options w) as He.
  unfold trace, result in *. unfold compile. rewrite run_bind.
  destruct (emit ast context options w) as [[[content|e] te] we]; cbn in *.
  - rewrite typeset_without_pdf by done. cbn. rewrite app_nil_r. by split; [|left].
  - split; [done|]. right. by exists e.
Qed.

(** C10: on falsy data [writeFile] makes no call and returns [null]; and
    in a run whose rendered content is the empty string no source file is
    written: the only [fs.writeFile] call there can be is the one of the
    bibliography. *)
Theorem writeFile_skips_falsy_data :
  (forall path data w,
      truthy data = false -> writeFile path data w = (Normal None, [], w)) /\
  (forall ast context options w tex pkg,
      result (render ast context options) w = Normal (tex, pkg, "") ->
      forall p d ok,
        Sys (WriteFile p d) ok ∈ trace (compile ast context options) w ->
        bibtexOf context = true /\
        p = bibPath context options /\ d = VString (bibText tex context)).
Proof.
  split; [apply writeFile_falsy|].
  intros ast context options w tex pkg Hr p d ok Hin.
  apply compile_writes in Hin as (tex' & pkg' & content & Hr' & Hcases).
  rewrite Hr in Hr'. injection Hr' as <- <- <-.
  destruct Hcases as [(_ & _ & Hne)|(-> & -> & Hb & _)]; done.
Qed.

End Entry.

(** ** Strings *)

Lemma append_assoc s1 s2 s3 : (s1 +:+ s2) +:+ s3 = s1 +:+ s2 +:+ s3.
Proof.
  induction s1 as [|c s1 IH]; [done|].
  change (String c (s1 +:+ s2 +:+ s3)) with (String c ((s1 +:+ s2) +:+ s3)) || idtac.
  change ((String c s1 +:+ s2) +:+ s3) with (String c ((s1 +:+ s2) +:+ s3)).
  change (String c s1 +:+ s2 +:+ s3) with (String c (s1 +:+ s2 +:+ s3)).
  by rewrite IH.
Qed.

Lemma append_empty_r s : s +:+ "" = s.
Proof.
  induction s as [|c s IH]; [done|].
  change (String c s +:+ "") with (String c (s +:+ "")). by rewrite IH.
Qed.

Lemma bind_Normal {A B} (a : A) (k : A -> completion B) : (Normal a ≫= k) = k a.
Proof. reflexivity. Qed.

Section Extractor.
Context {host : Host}.

(** ** The structural extractor *)

Lemma extractNode_acknowledgments n tex :
  isNamed "acknowledgments" n = true ->
  extractNode n tex =
  Normal (Some ("acknowledgments", VString (extractContent "acknowledgments" n tex))).
Proof.
  unfold isNamed, extractNode. intros Hn%bool_decide_eq_true.
  by rewrite Hn.
Qed.

Lemma extractNode_inv n tex name content :
  extractNode n tex = Normal (Some (name, content)) ->
  name ∈ blocks /\ (name = "acknowledgments" -> isNamed "acknowledgments" n = true).
Proof.
  unfold extractNode, isNamed, blocks.
  destruct (AST.name n) as [nm|]; [|done].
  destruct (decide (nm = "abstract")) as [->|Habs].
  { cbn. intros [= <- <-]. split; [by left|done]. }
  destruct (decide (nm = "acknowledgments")) as [->|Hack].
  { cbn. intros [= <- <-]. split; [by right; left|]. intros _. by apply bool_decide_eq_true. }
  rewrite !bool_decide_eq_false_2 by done. cbn.
  case_bool_decide as Hpre.
  { destruct (firstChildValue n); [|done]. cbn. intros [= <- <-].
    split; [by do 2 right; left|done]. }
  case_bool_decide as Hfig; [|done].
  destruct (hasClass n "teaser"); [|done].
  cbn. intros [= <- <-]. split; [by do 3 right; left|done].
Qed.

Lemma extractNode_total n tex :
  (AST.name n = Some "latex:preamble" -> getChildren n ≠ []) ->
  exists r, extractNode n tex = Normal r.
Proof.
  intros Hpre. unfold extractNode.
  destruct (AST.name n) as [nm|] eqn:Hname; [|by eauto].
  destruct (bool_decide (nm = "abstract") || bool_decide (nm = "acknowledgments"));
    [cbn; case_bool_decide; by eauto|].
  case_bool_decide as Hp.
  - subst nm. specialize (Hpre eq_refl).
    destruct n as [v|nm props [|c r]]; [done..|]. cbn. by eauto.
  - case_bool_decide; [|by eauto].
    destruct (hasClass n "teaser"); cbn; by eauto.
Qed.

Lemma blockOf_insert data name s :
  blockOf (<[name := VString s]> data) name = s.
Proof.
  unfold blockOf, get, or. rewrite lookup_insert_eq. cbn.
  case_bool_decide; by subst.
Qed.

Lemma extractInto_acknowledgments tex n data :
  isNamed "acknowledgments" n = true ->
  extractInto tex n data =
  Normal (<["acknowledgments" :=
              VString (blockOf data "acknowledgments"
                       +:+ extractContent "acknowledgments" n tex)]> data).
Proof.
  intros Hn. unfold extractInto. by rewrite extractNode_acknowledgments.
Qed.

Lemma extractInto_frame tex n data data' key :
  extractInto tex n data = Normal data' ->
  key ∉ blocks \/ (key = "acknowledgments" /\ isNamed "acknowledgments" n = false) ->
  data' !! key = data !! key.
Proof.
  unfold extractInto. intros Hrun Hkey.
  destruct (extractNode n tex) as [[[name content]|]|e] eqn:Hex; cbn in Hrun;
    [|congruence|done].
  injection Hrun as <-.
  apply extractNode_inv in Hex as [Hin Hack].
  apply lookup_insert_ne. intros ->.
  destruct Hkey as [Hkey|[-> Hno]]; [done|].
  rewrite Hack in Hno; done.
Qed.

Lemma extractInto_total tex n data :
  (AST.name n = Some "latex:preamble" -> getChildren n ≠ []) ->
  exists data', extractInto tex n data = Normal data'.
Proof.
  intros Hpre. unfold extractInto.
  destruct (extractNode_total n tex Hpre) as [[[name content]|] ->]; cbn; by eauto.
Qed.

Lemma forEach_frame tex l data data' key :
  forEach (extractInto tex) l data = Normal data' ->
  key ∉ blocks ->
  data' !! key = data !! key.
Proof.
  revert data. induction l as [|x l IH]; intros data; cbn.
  - by intros [= ->].
  - destruct (extractInto tex x data) as [d1|e] eqn:Hx; [|done]. cbn.
    intros Hrun Hkey. rewrite (IH _ Hrun Hkey).
    eapply extractInto_frame; [done|by left].
Qed.

(** The walk over the top-level children, seen from the acknowledgments
    block. *)
Lemma forEach_acknowledgments tex l :
  Forall (fun n => AST.name n = Some "latex:preamble" -> getChildren n ≠ []) l ->
  forall data, exists data',
    forEach (extractInto tex) l data = Normal data' /\
    blockOf data' "acknowledgments" =
      blockOf data "acknowledgments"
      +:+ concatenation
            ((fun n => extractContent "acknowledgments" n tex)
               <$> filter (fun n => isNamed "acknowledgments" n = true) l) /\
    (filter (fun n => isNamed "acknowledgments" n = true) l = [] ->
     data' !! "acknowledgments" = data !! "acknowledgments") /\
    (filter (fun n => isNamed "acknowledgments" n = true) l ≠ [] ->
     data' !! "acknowledgments" = Some (VString (blockOf data' "acknowledgments"))).
Proof.
  induction 1 as [|x l Hx _ IH]; intros data.
  - exists data. cbn. by rewrite append_empty_r.
  - cbn [forEach]. destruct (isNamed "acknowledgments" x) eqn:Hack.
    + rewrite filter_cons_True by done.
      rewrite extractInto_acknowledgments by done.
      set (d1 := <["acknowledgments" := _]> data).
      rewrite bind_Normal.
      destruct (IH d1) as (data' & -> & Hblock & Hnone & Hsome).
      exists data'.
      assert (blockOf d1 "acknowledgments" =
              blockOf data "acknowledgments" +:+ extractContent "acknowledgments" x tex)
        as Hd1 by apply blockOf_insert.
      split; [done|]. split; [|split; [done|]].
      * rewrite Hblock, Hd1. cbn. by rewrite append_assoc.
      * intros _.
        destruct (filter (fun n => isNamed "acknowledgments" n = true) l) eqn:Hf.
        -- rewrite Hnone by done. unfold d1. rewrite lookup_insert_eq.
           rewrite Hblock, Hd1. cbn. by rewrite append_empty_r.
        -- by apply Hsome.
    + rewrite filter_cons_False by (by rewrite Hack).
      destruct (extractInto_total tex x data Hx) as [d1 Hd1]. rewrite Hd1.
      rewrite bind_Normal.
      destruct (IH d1) as (data' & -> & Hblock & Hnone & Hsome).
      exists data'.
      assert (d1 !! "acknowledgments" = data !! "acknowledgments") as Hsame
        by (eapply extractInto_frame; [done|by right]).
      split; [done|]. split; [|split].
      * rewrite Hblock. unfold blockOf, get. by rewrite Hsame.
      * intros Hf. by rewrite Hnone.
      * done.
Qed.

End Extractor.

Section Claims.
Context {host : Host}.

(** ** Claims on the render data *)

Ltac not_block :=
  unfold blocks;
  repeat (apply not_elem_of_cons; split; [discriminate|]);
  apply not_elem_of_nil.

Lemma marshal_no_blocks tex context options content :
  marshal tex context options content !! "acknowledgments" = None.
Proof. reflexivity. Qed.

Lemma renderData_frame tex context options ast data key s :
  tex_tex tex (Some ast) = Some s ->
  renderData tex context options ast = Normal data ->
  key ∉ blocks ->
  data !! key = marshal tex context options (trim s) !! key.
Proof.
  unfold renderData. intros ->. rewrite bind_Normal. apply forEach_frame.
Qed.

Lemma renderData_content tex context options ast data :
  renderData tex context options ast = Normal data ->
  exists s, tex_tex tex (Some ast) = Some s.
Proof.
  unfold renderData. destruct (tex_tex tex (Some ast)); [by eauto|done].
Qed.

(** C6: when the top-level children hold the acknowledgments nodes [a1],
    [a2] and then [rest], in this order, the acknowledgments block of the
    render data is the concatenation, in this order, of the content of
    each: the vertical-space command of the block name, the trimmed
    fragment of the node, and its figure label. *)
Theorem acknowledgments_concatenated tex context options ast s a1 a2 rest :
  tex_tex tex (Some ast) = Some s ->
  preamblesHaveChild ast ->
  filter (fun n => isNamed "acknowledgments" n = true) (getChildren ast)
    = a1 :: a2 :: rest ->
  exists data,
    renderData tex context options ast = Normal data /\
    data !! "acknowledgments" =
    Some (VString (concatenation
      ((fun n => tex_vspace tex "acknowledgments"
                 +:+ trim (tex_fragment tex n)
                 +:+ tex_label tex n "fig") <$> a1 :: a2 :: rest))).
Proof.
  intros Hs Hpre Hacks. unfold renderData. rewrite Hs, bind_Normal.
  destruct (forEach_acknowledgments tex (getChildren ast) Hpre
              (marshal tex context options (trim s)))
    as (data & Hrun & Hblock & _ & Hsome).
  exists data. split; [done|].
  rewrite Hsome by (by rewrite Hacks).
  rewrite Hblock, Hacks. unfold blockOf, get.
  by rewrite marshal_no_blocks.
Qed.

Lemma marshal_unknown_author tex context options content :
  Metadata.author (Context.metadata context) = None ->
  hasUnknownAuthor (marshal tex context options content).
Proof.
  intros Hnone. unfold hasUnknownAuthor, marshal, authorOf. rewrite Hnone.
  repeat split; reflexivity.
Qed.

(** C9: when the metadata has no author, the author list of the render
    data is the single author named "Unknown Author"; [author_first] is
    that author, [author_rest] is empty and [author_names] is
    ["Unknown Author"].  This holds of the object literal and of the data
    after the special sections have been added. *)
Theorem unknown_author tex context options :
  Metadata.author (Context.metadata context) = None ->
  Author.name unknownAuthor = "Unknown Author" /\
  (forall content, hasUnknownAuthor (marshal tex context options content)) /\
  (forall ast data,
      renderData tex context options ast = Normal data -> hasUnknownAuthor data).
Proof.
  intros Hnone. split; [done|]. split.
  - intros content. by apply marshal_unknown_author.
  - intros ast data Hrun.
    destruct (renderData_content _ _ _ _ _ Hrun) as [s Hs].
    destruct (marshal_unknown_author tex context options (trim s) Hnone)
      as (H1 & H2 & H3 & H4).
    unfold hasUnknownAuthor.
    rewrite !(renderData_frame tex context options ast data _ s Hs Hrun)
      by not_block.
    done.
Qed.

Lemma bibEntries_nil context :
  bibEntries context = [] -> bibtexOf context = false.
Proof.
  unfold bibEntries, bibtexOf.
  destruct (Context.citations context) as [c|]; [|done].
  destruct (Citations.bibtex c) as [entries|]; [|done].
  cbn. intros ->. done.
Qed.

(** C8: when the citations hold no bibliography entries (an empty
    sequence, no sequence, or no citations at all), the [bibtex] field of
    the render data is [undefined], and the only [fs.writeFile] call of a
    run is the one that writes the rendered content to the source path;
    no call writes to the bibliography path (which differs from the source
    path as soon as [path.join] keeps different file names apart). *)
Theorem no_bibliography_without_entries context options :
  bibEntries context = [] ->
  (forall tex content,
      get (marshal tex context options content) "bibtex" = VUndefined) /\
  (forall tex ast data,
      renderData tex context options ast = Normal data ->
      get data "bibtex" = VUndefined) /\
  (forall ast w p d ok,
      Sys (WriteFile p d) ok ∈ trace (compile ast context options) w ->
      p = texPath context options /\
      exists tex pkg content,
        result (render ast context options) w = Normal (tex, pkg, content) /\
        d = VString content) /\
  ((forall a b, path_join (latexDirOf context options) a
                = path_join (latexDirOf context options) b -> a = b) ->
   forall ast w d ok,
     Sys (WriteFile (bibPath context options) d) ok
       ∉ trace (compile ast context options) w).
Proof.
  intros Hnil%bibEntries_nil.
  assert (forall tex content,
             get (marshal tex context options content) "bibtex" = VUndefined) as Hm.
  { intros tex content. unfold get, marshal. rewrite Hnil. reflexivity. }
  assert (forall ast w p d ok,
      Sys (WriteFile p d) ok ∈ trace (compile ast context options) w ->
      p = texPath context options /\
      exists tex pkg content,
        result (render ast context options) w = Normal (tex, pkg, content) /\
        d = VString content) as Hw.
  { intros ast w p d ok Hin.
    apply compile_writes in Hin as (tex & pkg & content & Hr & Hcases).
    destruct Hcases as [(-> & -> & _)|(_ & _ & Hb & _)]; [|congruence].
    split; [done|]. by exists tex, pkg, content. }
  split; [done|]. split; [|split; [done|]].
  - intros tex ast data Hrun.
    destruct (renderData_content _ _ _ _ _ Hrun) as [s Hs].
    unfold get.
    rewrite (renderData_frame tex context options ast data _ s Hs Hrun)
      by not_block.
    exact (Hm tex (trim s)).
  - intros Hinj ast w d ok Hin.
    apply Hw in Hin as [Heq _]. unfold bibPath, texPath in Heq.
    apply Hinj in Heq. by apply (inj (String.app _)) in Heq.
Qed.

(** ** Claims on the typeset driver *)


End Claims.

(** ** The claims on the sample host *)

Section Samples.
Import Demo.

Lemma places_article :
  places article =
  Normal (annotate article,
          {[ "figA" := PlaceFigure (figure "figA" [TextNode "A caption"]) ]}).
Proof. vm_compute. reflexivity. Qed.

Lemma acknowledgments_concatenated_witness :
  exists data,
    renderData sampleTex context (options true) (annotate article) = Normal data /\
    data !! "acknowledgments" =
    Some (VString "\vspace{-1em}Thanks to A.\vspace{-1em}Thanks to B.\label{fig:ack}").
Proof.
  destruct (acknowledgments_concatenated sampleTex context (options true)
              (annotate article)
              " We study places. Thanks to A. Body.\place{figA}A caption Thanks to B."
              (Component "acknowledgments" ∅ [TextNode "Thanks to A. "])
              (Component "acknowledgments" {[ "id" := "ack" ]} [TextNode " Thanks to B."])
              [])
    as (data & Hrun & Hblock).
  - vm_compute. reflexivity.
  - unfold preamblesHaveChild. cbn. repeat constructor; discriminate.
  - vm_compute. reflexivity.
  - exists data. split; [exact Hrun|]. rewrite Hblock. vm_compute. reflexivity.
Defined.

Lemma unknown_author_witness :
  Metadata.author (Context.metadata context) = None /\
  forall content,
    marshal sampleTex context (options true) content !! "author_names"
    = Some (VString "Unknown Author").
Proof.
  split; [reflexivity|]. intros content.
  destruct (unknown_author sampleTex context (options true) eq_refl) as (_ & Hm & _).
  exact (proj2 (proj2 (proj2 (Hm content)))).
Defined.

Lemma no_bibliography_without_entries_witness :
  bibEntries context = [] /\
  (forall content, get (marshal sampleTex context (options true) content) "bibtex" = VUndefined) /\
  (forall d ok,
      Sys (WriteFile "/tmp/lpub/latex/places.bib" d) ok
        ∉ trace (compile article context (options true)) (machine "T:")).
Proof.
  split; [reflexivity|].
  destruct (no_bibliography_without_entries context (options true) eq_refl)
    as (Hm & _ & _ & Hno).
  split; [exact (Hm sampleTex)|].
  intros d ok. apply Hno. intros a b Heq.
  apply (inj (String.app _)) in Heq. by apply (inj (String.app _)) in Heq.
Defined.

Lemma compile_without_pdf_witness :
  Options.pdf (options false) = Some false /\
  Forall (fun e => ~ isPdflatex e)
    (trace (compile article context (options false)) (machine "T:")) /\
  result (compile article context (options false)) (machine "T:")
    = Normal (Some "/home/me/paper/build/latex").
Proof.
  split; [reflexivity|].
  destruct (compile_without_pdf article context (options false) (machine "T:") eq_refl)
    as [Hnever [Hret|(e & Hthrown & _)]].
  - split; [exact Hnever|exact Hret].
  - vm_compute in Hthrown. discriminate Hthrown.
Defined.



Lemma writeFile_skips_falsy_data_witness :
  @writeFile host "/tmp/lpub/latex/places.tex" (VString "") (machine "")
    = (Normal None, [], machine "") /\
  forall p d ok,
    Sys (WriteFile p d) ok ∉ trace (compile article context (options true)) (machine "").
Proof.
  destruct (@writeFile_skips_falsy_data host) as [Hskip Hnone].
  split; [apply Hskip; reflexivity|].
  intros p d ok Hin.
  assert (result (render article context (options true)) (machine "")
          = Normal (sampleTex,
                    {| Package.template := Some "template.tex"; Package.files := None;
                       Package.dir := "/usr/lib/living-papers/latex-templates/article" |},
                    "")) as Hr by (vm_compute; reflexivity).
  destruct (Hnone _ _ _ _ _ _ Hr p d ok Hin) as [Hbib _].
  discriminate Hbib.
Defined.

End Samples.

(* ===================================================================== *)
(** * Further properties                                                  *)
(* ===================================================================== *)

(** ** The place resolver *)

Lemma treeMap_fixed mut t :
  (forall n, n ∈ nodes t -> mut n = n) -> treeMap mut t = t.
Proof.
  induction t as [v|nm props ch IH] using node_ind_nested; intros Hfix.
  - cbn. apply Hfix. by left.
  - cbn [treeMap]. rewrite (Hfix (Component nm props ch)) by (by left).
    cbn. f_equal.
    assert (forall c, c ∈ ch -> forall n, n ∈ nodes c -> mut n = n) as Hch.
    { intros c Hc n Hn. apply Hfix. cbn. right.
      apply list_elem_of_In, in_flat_map. exists c.
      split; by apply list_elem_of_In. }
    clear Hfix. induction IH as [|c r Hc _ IHr]; [done|].
    cbn. rewrite Hc by (apply Hch; by left).
    rewrite IHr; [done|]. intros c' Hc'. apply Hch. by right.
Qed.

Lemma walk_claim_miss l m k :
  (forall n, n ∈ l -> placeId n ≠ Some k) ->
  walk claim l m !! k = m !! k.
Proof.
  induction l as [|x l IH] using rev_ind; intros Hno; [done|].
  rewrite walk_snoc. unfold claim at 1.
  assert (placeId x ≠ Some k) as Hx by (apply Hno, elem_of_app; right; by left).
  rewrite <- IH by (intros n Hn; apply Hno, elem_of_app; by left).
  destruct (placeId x) as [id|]; [|done].
  rewrite lookup_insert_ne; [done|congruence].
Qed.

Lemma walk_claim_inv l k :
  is_Some (walk claim l ∅ !! k) -> exists n, n ∈ l /\ placeId n = Some k.
Proof.
  induction l as [|x l IH] using rev_ind.
  - cbn. rewrite lookup_empty. by intros [? ?].
  - rewrite walk_snoc. unfold claim at 1.
    destruct (placeId x) as [id|] eqn:Hx.
    + destruct (decide (id = k)) as [->|Hne].
      * intros _. exists x. split; [|done]. apply elem_of_app. right. by left.
      * rewrite lookup_insert_ne by done. intros (n & Hn & Hid)%IH.
        exists n. split; [|done]. apply elem_of_app. by left.
    + intros (n & Hn & Hid)%IH.
      exists n. split; [|done]. apply elem_of_app. by left.
Qed.

Lemma walk_bind_inv l m k f :
  walk bind l m !! k = Some (PlaceFigure f) ->
  m !! k = Some (PlaceFigure f) \/ (f ∈ l /\ figureId f = Some k).
Proof.
  induction l as [|x l IH] using rev_ind; [by left|].
  rewrite walk_snoc. unfold bind at 1.
  assert (walk bind l m !! k = Some (PlaceFigure f) ->
          m !! k = Some (PlaceFigure f) \/ (f ∈ l ++ [x] /\ figureId f = Some k)) as IH'.
  { intros [?|[? ?]]%IH; [by left|]. right. split; [|done]. apply elem_of_app. by left. }
  destruct (figureId x) as [id|] eqn:Hx; [|done].
  case_bool_decide; [|done].
  destruct (decide (id = k)) as [->|Hne].
  - rewrite lookup_insert_eq. intros [= <-]. right.
    split; [|done]. apply elem_of_app. right. by left.
  - by rewrite lookup_insert_ne.
Qed.

Lemma places_normal ast ast' m :
  places ast = Normal (ast', m) ->
  rawNodesHaveText ast /\
  ast' = annotate ast /\
  m = walk bind (nodes (annotate ast)) (walk claim (nodes ast) ∅).
Proof.
  rewrite places_spec.
  destruct (firstError placeGuard (nodes ast)) eqn:Hwf; [done|].
  intros [= <- <-]. split; [|done]. by apply firstError_None.
Qed.

(** X1: a tree without place directives comes back as it was, with an empty
    place map: nothing is written on any node. *)
Theorem places_without_directives ast :
  rawNodesHaveText ast ->
  (forall n, n ∈ nodes ast -> placeId n = None) ->
  places ast = Normal (ast, ∅).
Proof.
  intros Hwf Hnone. rewrite places_spec.
  rewrite (proj2 (firstError_None placeGuard (nodes ast)) Hwf).
  assert (annotate ast = ast) as ->.
  { apply treeMap_fixed. intros n Hn. unfold mark. by rewrite Hnone. }
  assert (walk claim (nodes ast) ∅ = ∅) as ->.
  { apply map_eq. intros k. rewrite walk_claim_miss; [done|].
    intros n Hn. by rewrite Hnone. }
  by rewrite walk_bind_empty.
Qed.

Lemma places_without_directives_witness :
  places (Component "article" ∅
            [Component "p" ∅ [TextNode "Body."; rawTex "\newpage"];
             figure "figA" [TextNode "A caption"]])
  = Normal (Component "article" ∅
              [Component "p" ∅ [TextNode "Body."; rawTex "\newpage"];
               figure "figA" [TextNode "A caption"]], ∅).
Proof.
  apply places_without_directives.
  - unfold rawNodesHaveText. cbn. repeat constructor.
  - intros n Hn. cbn in Hn.
    repeat (apply elem_of_cons in Hn as [->|Hn]; [reflexivity|]).
    inversion Hn.
Defined.

Lemma placeGuard_TypeError n e :
  placeGuard n = Some e -> exists msg, e = TypeError msg.
Proof.
  unfold placeGuard. destruct (isRawTex n); [|done].
  destruct n as [v|nm props [|c r]]; cbn.
  - intros [= <-]. by eexists.
  - intros [= <-]. by eexists.
  - destruct (value c); [done|]. intros [= <-]. by eexists.
Qed.

Lemma firstError_Some guard l e :
  firstError guard l = Some e -> exists n, n ∈ l /\ guard n = Some e.
Proof.
  induction l as [|x l IH]; [done|]. cbn.
  destruct (guard x) as [e'|] eqn:Hx.
  - intros [= <-]. exists x. split; [by left|done].
  - intros (n & Hn & Hg)%IH. exists n. split; [by right|done].
Qed.

(** X2: [places] throws exactly when some raw tex node of the tree has no
    literal text as its first child (no child at all, or a first child
    that is not a text node); the error is a [TypeError]. *)
Theorem places_throws ast :
  ((exists e, places ast = Throw e) <->
   (exists n, n ∈ nodes ast /\ isRawTex n = true /\ ~ hasText n)) /\
  (forall e, places ast = Throw e -> exists msg, e = TypeError msg).
Proof.
  rewrite places_spec. split; [split|].
  - intros [e He].
    destruct (firstError placeGuard (nodes ast)) as [e'|] eqn:Hfirst; [|done].
    apply firstError_Some in Hfirst as (n & Hn & Hguard).
    exists n. split; [done|]. unfold placeGuard in Hguard.
    destruct (isRawTex n); [|done]. split; [done|].
    intros [text Htext]. by rewrite Htext in Hguard.
  - intros (n & Hn & Hraw & Hno).
    destruct (firstError placeGuard (nodes ast)) as [e'|] eqn:Hfirst; [by eauto|].
    apply firstError_None in Hfirst. rewrite Forall_forall in Hfirst.
    specialize (Hfirst n Hn). unfold placeGuard in Hfirst. rewrite Hraw in Hfirst.
    destruct (firstChildValue n) as [[text|]|] eqn:Htext; try done.
    destruct Hno. by exists text.
  - intros e He.
    destruct (firstError placeGuard (nodes ast)) as [e'|] eqn:Hfirst; [|done].
    injection He as <-.
    apply firstError_Some in Hfirst as (n & _ & Hguard).
    by apply placeGuard_TypeError in Hguard.
Qed.

(** X3: the keys of the place map are the identifiers read off the place
    directives of the tree: the second walk adds no key and drops none. *)
Theorem places_keys ast ast' m k :
  places ast = Normal (ast', m) ->
  is_Some (m !! k) <-> exists r, r ∈ nodes ast /\ placeId r = Some k.
Proof.
  intros (_ & _ & ->)%places_normal.
  rewrite walk_bind_is_Some. split.
  - apply walk_claim_inv.
  - intros Hr. rewrite (walk_claim_hit _ _ _ Hr). by eexists.
Qed.

Lemma places_keys_witness :
  places placedArticle =
    Normal (annotate placedArticle,
            {[ "figA" := PlaceFigure (figure "figA" [TextNode "A caption"]) ]}) /\
  exists r, r ∈ nodes placedArticle /\ placeId r = Some "figA".
Proof.
  assert (places placedArticle =
    Normal (annotate placedArticle,
            {[ "figA" := PlaceFigure (figure "figA" [TextNode "A caption"]) ]})) as Hrun
    by (vm_compute; reflexivity).
  split; [exact Hrun|].
  apply (places_keys placedArticle _ _ "figA" Hrun).
  eexists. apply lookup_singleton_eq.
Defined.

(** X4: an entry of the place map is the empty placeholder or a figure node
    of the walked tree whose [id] is the key; the empty identifier is
    never bound to a figure. *)
Theorem places_entries ast ast' m k f :
  places ast = Normal (ast', m) ->
  m !! k = Some (PlaceFigure f) ->
  f ∈ nodes ast' /\ isFigure f k /\ k ≠ "".
Proof.
  intros (_ & -> & ->)%places_normal Hk.
  apply walk_bind_inv in Hk as [Hk|[Hf Hid]].
  - by apply walk_claim_values in Hk.
  - split; [done|]. split; [by apply figureId_isFigure|].
    intros ->. unfold figureId in Hid.
    case_bool_decide; [|done].
    destruct (getPropertyValue f "id") as [id|]; [|done].
    case_bool_decide; congruence.
Qed.

Lemma places_entries_witness :
  figure "figA" [TextNode "A caption"] ∈ nodes (annotate placedArticle) /\
  isFigure (figure "figA" [TextNode "A caption"]) "figA" /\
  "figA" ≠ "".
Proof.
  apply (places_entries placedArticle (annotate placedArticle)
           {[ "figA" := PlaceFigure (figure "figA" [TextNode "A caption"]) ]}).
  - vm_compute. reflexivity.
  - apply lookup_singleton_eq.
Defined.

(** X5: the first walk writes on each directive node the identifier it read,
    and that identifier is a key of the place map. *)
Theorem places_marks_directives ast ast' m r id :
  places ast = Normal (ast', m) ->
  r ∈ nodes ast ->
  placeId r = Some id ->
  annotate r ∈ nodes ast' /\
  getPropertyValue (annotate r) "place" = Some id /\
  is_Some (m !! id).
Proof.
  intros (_ & -> & ->)%places_normal Hr Hid. split; [|split].
  - rewrite nodes_annotate. by apply list_elem_of_fmap_2.
  - destruct r as [v|nm props ch]; [done|].
    rewrite annotate_component, Hid. cbn. apply lookup_insert_eq.
  - apply walk_bind_is_Some. rewrite (walk_claim_hit _ _ id); eauto.
Qed.

Lemma places_marks_directives_witness :
  annotate (rawTex "\place{figA}") ∈ nodes (annotate placedArticle) /\
  getPropertyValue (annotate (rawTex "\place{figA}")) "place" = Some "figA" /\
  is_Some
    (({[ "figA" := PlaceFigure (figure "figA" [TextNode "A caption"]) ]}
        : gmap string place) !! "figA").
Proof.
  apply (places_marks_directives placedArticle).
  - vm_compute. reflexivity.
  - cbn. do 3 right. left.
  - reflexivity.
Defined.

(** X6: the first walk changes nothing but the [place] property of directive
    nodes: the walked tree has the same nodes in the same order, each with
    its name, its literal value, its number of children and every other
    property as before, and a node that is no directive keeps its [place]
    property too. *)
Theorem places_touches_only_place ast ast' m :
  places ast = Normal (ast', m) ->
  nodes ast' = annotate <$> nodes ast /\
  forall n,
    name (annotate n) = name n /\
    value (annotate n) = value n /\
    length (getChildren (annotate n)) = length (getChildren n) /\
    (forall key, key ≠ "place" ->
                 getPropertyValue (annotate n) key = getPropertyValue n key) /\
    (placeId n = None ->
     getPropertyValue (annotate n) "place" = getPropertyValue n "place").
Proof.
  intros (_ & -> & _)%places_normal. split; [apply nodes_annotate|].
  intros n. split; [apply name_annotate|]. split; [apply value_annotate|].
  split; [by rewrite getChildren_annotate, length_map|].
  split; [intros key Hkey; by apply getPropertyValue_annotate|].
  intros Hnone. destruct n as [v|nm props ch]; [done|].
  by rewrite annotate_component, Hnone.
Qed.

Lemma places_touches_only_place_witness :
  nodes (annotate placedArticle) = annotate <$> nodes placedArticle.
Proof.
  apply (places_touches_only_place placedArticle (annotate placedArticle)
           {[ "figA" := PlaceFigure (figure "figA" [TextNode "A caption"]) ]}).
  vm_compute. reflexivity.
Defined.

(** ** Reading the identifier of a directive *)

Lemma prefix_app s t : String.prefix s (s +:+ t) = true.
Proof.
  induction s as [|c s IH]; [by destruct t|].
  change (String c s +:+ t) with (String c (s +:+ t)). cbn.
  by destruct (ascii_dec c c).
Qed.

Lemma length_append s t :
  String.length (s +:+ t) = (String.length s + String.length t)%nat.
Proof.
  induction s as [|c s IH]; [done|].
  change (String c s +:+ t) with (String c (s +:+ t)). cbn. by rewrite IH.
Qed.

Lemma absent_app c s t : absent c s -> absent c t -> absent c (s +:+ t).
Proof.
  induction s as [|x s IH]; [done|].
  change (String x s +:+ t) with (String x (s +:+ t)). cbn.
  intros [Hx Hs] Ht. split; [done|]. by apply IH.
Qed.

Lemma index_absent c s t :
  absent c s ->
  String.index 0 (String c EmptyString) (s +:+ String c t) = Some (String.length s).
Proof.
  induction s as [|x s IH]; intros Hs.
  - change (EmptyString +:+ String c t) with (String c t). cbn.
    destruct (ascii_dec c c); [|done]. by destruct t.
  - destruct Hs as [Hx Hs].
    change (String x s +:+ String c t) with (String x (s +:+ String c t)).
    cbn. destruct (ascii_dec c x) as [->|_]; [done|].
    by rewrite IH.
Qed.

Lemma substring_skip a s n :
  String.substring (String.length a) n (a +:+ s) = String.substring 0 n s.
Proof.
  induction a as [|c a IH]; [done|].
  change (String c a +:+ s) with (String c (a +:+ s)). cbn. apply IH.
Qed.

Lemma substring_take b s :
  String.substring 0 (String.length b) (b +:+ s) = b.
Proof.
  induction b as [|c b IH]; [by destruct s|].
  change (String c b +:+ s) with (String c (b +:+ s)). cbn. by rewrite IH.
Qed.

(** X7: the identifier of a directive is the text between the opening brace
    of the command and the first closing brace; what follows that brace is
    ignored. *)
Theorem collectPlace_reads_identifier n id rest places :
  isRawTex n = true ->
  firstChildValue n = Normal (Some (cmd +:+ id +:+ "}" +:+ rest)) ->
  absent "}" id ->
  collectPlace n places =
  Normal (setValueProperty n "place" id, <[id := PlaceEmpty]> places).
Proof.
  intros Hraw Htext Hid. rewrite collectPlace_shape.
  unfold placeGuard, mark, claim, placeId. rewrite Hraw, Htext.
  unfold startsWith. rewrite prefix_app.
  assert (indexOf (cmd +:+ id +:+ "}" +:+ rest) "}"
          = Z.of_nat (String.length cmd + String.length id)) as ->.
  { unfold indexOf. rewrite <- append_assoc.
    change ("}" +:+ rest) with (String "}" rest).
    rewrite index_absent, length_append; [done|].
    apply absent_app; [|done]. cbn. repeat split; discriminate. }
  assert (slice (cmd +:+ id +:+ "}" +:+ rest) (Z.of_nat (String.length cmd))
            (Z.of_nat (String.length cmd + String.length id)) = id) as ->; [|done].
  unfold slice, clamp. rewrite !length_append.
  replace (_ <? 0) with false by (symmetry; apply Z.ltb_ge; lia).
  replace (_ <? 0) with false by (symmetry; apply Z.ltb_ge; lia).
  rewrite !Z.min_l by lia.
  replace (Z.to_nat (Z.max _ 0)) with (String.length id) by lia.
  rewrite Nat2Z.id, substring_skip. apply substring_take.
Qed.

Lemma collectPlace_reads_identifier_witness :
  collectPlace (rawTex "\place{figA} and more}") ∅ =
  Normal (setValueProperty (rawTex "\place{figA} and more}") "place" "figA",
          <["figA" := PlaceEmpty]> ∅).
Proof.
  apply (collectPlace_reads_identifier _ "figA" " and more}").
  - reflexivity.
  - reflexivity.
  - cbn. repeat split; discriminate.
Defined.

Section MoreExtractor.
Context {host : Host}.

(** ** The structural extractor, block by block *)

Lemma extractNode_target n tex :
  extractNode n tex =
  match target n with
  | Some name =>
      if bool_decide (name = "preamble")
      then content ← firstChildValue n; Normal (Some ("preamble", ofOption content))
      else Normal (Some (name, VString (extractContent name n tex)))
  | None => Normal None
  end.
Proof.
  unfold extractNode, target, isNamed.
  destruct (name n) as [nm|]; [|done].
  destruct (decide (nm = "abstract")) as [->|Habs]; [done|].
  destruct (decide (nm = "acknowledgments")) as [->|Hack]; [done|].
  destruct (decide (nm = "latex:preamble")) as [->|Hpre]; [done|].
  rewrite !(bool_decide_eq_false_2 (Some nm = Some _)) by congruence.
  rewrite !(bool_decide_eq_false_2 (nm = _)) by done. cbn.
  destruct (decide (nm = "figure")) as [->|Hfig].
  - cbn. by destruct (hasClass _ "teaser").
  - rewrite !bool_decide_eq_false_2 by congruence. done.
Qed.

Lemma target_blocks n name : target n = Some name -> name ∈ blocks.
Proof.
  unfold target, blocks.
  repeat (case_match; [intros [= <-]; set_unfold; tauto|]). done.
Qed.

Lemma extractInto_target tex n data :
  extractInto tex n data =
  match target n with
  | Some name =>
      if bool_decide (name = "preamble") && bool_decide (getChildren n = [])
      then Throw (TypeError (match n with
                             | TextNode _ => "node.children is undefined"
                             | _ => "node.children[0] is undefined"
                             end))
      else Normal (<[name := VString (blockOf data name +:+ contentOf tex n)]> data)
  | None => Normal data
  end.
Proof.
  unfold extractInto, contentOf. rewrite extractNode_target.
  destruct (target n) as [name|] eqn:Ht; [|done].
  case_bool_decide as Hpre; [|done]. subst name.
  destruct n as [v|nm props [|c r]]; [| |done].
  - unfold target, isNamed in Ht. cbn in Ht. done.
  - done.
Qed.

Lemma blockOf_insert_ne data name other v :
  other ≠ name -> blockOf (<[other := v]> data) name = blockOf data name.
Proof. intros Hne. unfold blockOf, get. by rewrite lookup_insert_ne. Qed.

(** The walk over the top-level children, seen from one block. *)
Lemma forEach_block tex name l : forall data data',
  forEach (extractInto tex) l data = Normal data' ->
  blockOf data' name =
    blockOf data name +:+ concatenation (contentOf tex <$> targeting name l) /\
  data' !! name =
    match targeting name l with
    | [] => data !! name
    | _ => Some (VString (blockOf data' name))
    end.
Proof.
  unfold targeting.
  induction l as [|x l IH]; intros data data'.
  - cbn. intros [= ->]. by rewrite append_empty_r.
  - cbn [forEach]. rewrite extractInto_target.
    destruct (target x) as [nm|] eqn:Hx.
    + destruct (bool_decide (nm = "preamble") && bool_decide (getChildren x = []));
        [done|].
      rewrite bind_Normal. intros Hrun.
      destruct (IH _ _ Hrun) as [Hblock Hkey].
      destruct (decide (nm = name)) as [->|Hne].
      * rewrite filter_cons_True by done.
        rewrite blockOf_insert in Hblock. cbn [fmap list_fmap concatenation foldr].
        split; [by rewrite Hblock, append_assoc|].
        destruct (filter _ l) eqn:Hf; [|done].
        rewrite Hkey, lookup_insert_eq, Hblock. cbn. by rewrite append_empty_r.
      * rewrite filter_cons_False by congruence.
        rewrite blockOf_insert_ne in Hblock by done.
        split; [done|]. rewrite Hkey.
        destruct (filter _ l); [|done]. by rewrite lookup_insert_ne.
    + rewrite bind_Normal. intros Hrun.
      rewrite filter_cons_False by congruence. by apply IH.
Qed.

(** X8: each block of the render data is what the object literal holds
    under its name, as a string, followed by what the top-level nodes that
    go to this block add, in document order; a name no node goes to keeps
    what the object literal holds. *)
Theorem renderData_blocks tex context options ast s data name :
  tex_tex tex (Some ast) = Some s ->
  renderData tex context options ast = Normal data ->
  let literal := marshal tex context options (trim s) in
  let added := contentOf tex <$> targeting name (getChildren ast) in
  blockOf data name = blockOf literal name +:+ concatenation added /\
  (added ≠ [] ->
   data !! name = Some (VString (blockOf literal name +:+ concatenation added))) /\
  (added = [] -> data !! name = literal !! name).
Proof.
  intros Hs. unfold renderData. rewrite Hs, bind_Normal. intros Hrun. cbn zeta.
  destruct (forEach_block tex name _ _ _ Hrun) as [Hblock Hkey].
  split; [done|].
  destruct (targeting name (getChildren ast)); cbn; [by split|].
  split; [|done]. intros _. by rewrite Hkey, Hblock.
Qed.

(** X9: a tree whose top-level children are neither abstract nor
    acknowledgments nor a raw preamble nor a teaser figure adds no block:
    the render data is the object literal. *)
Theorem renderData_without_special_nodes tex context options ast s :
  tex_tex tex (Some ast) = Some s ->
  (forall n, n ∈ getChildren ast -> target n = None) ->
  renderData tex context options ast = Normal (marshal tex context options (trim s)).
Proof.
  intros Hs Hplain. unfold renderData. rewrite Hs, bind_Normal.
  generalize (marshal tex context options (trim s)). intros data.
  induction (getChildren ast) as [|x l IH]; [done|].
  cbn [forEach]. rewrite extractInto_target, Hplain by (by left).
  rewrite bind_Normal. apply IH. intros n Hn. apply Hplain. by right.
Qed.

Lemma preamble_contents tex l :
  contentOf tex <$> targeting "preamble" l =
  (fun n => default "" (toString ∘ ofOption ∘ value <$> head (getChildren n)))
    <$> filter (fun n => isNamed "latex:preamble" n = true) l.
Proof.
  unfold targeting. induction l as [|x l IH]; [done|].
  destruct (isNamed "latex:preamble" x) eqn:Hx.
  - assert (target x = Some "preamble") as Ht.
    { unfold target. rewrite Hx. unfold isNamed in *.
      apply bool_decide_eq_true in Hx. rewrite Hx.
      by rewrite !bool_decide_eq_false_2. }
    rewrite !filter_cons_True by done. cbn [fmap list_fmap]. rewrite IH. f_equal.
    unfold contentOf. rewrite Ht. cbn. by destruct (getChildren x).
  - rewrite (filter_cons_False (fun n => isNamed _ n = true)) by (by rewrite Hx).
    rewrite filter_cons_False; [done|].
    unfold target. rewrite Hx.
    repeat case_match; congruence.
Qed.

Lemma toString_or s : toString (or (VString s) (VString "")) = s.
Proof. unfold or. cbn. case_bool_decide as Hs; cbn; by rewrite ?Hs. Qed.

Lemma marshal_preamble tex context options content :
  marshal tex context options content !! "preamble" =
  Some (VString ("\graphicspath{{"
           +:+ path_relative (latexDirOf context options) (Context.inputDir context)
           +:+ "}}" +:+ LF)).
Proof. reflexivity. Qed.

(** X10: the text of the top-level raw preamble nodes goes to the template as
    it is, neither formatted nor trimmed, after the graphics path line, in
    document order. *)
Theorem preamble_verbatim tex context options ast s data :
  tex_tex tex (Some ast) = Some s ->
  renderData tex context options ast = Normal data ->
  get data "preamble" =
  VString (("\graphicspath{{"
            +:+ path_relative (latexDirOf context options) (Context.inputDir context)
            +:+ "}}" +:+ LF)
           +:+ concatenation
                 ((fun n => default "" (toString ∘ ofOption ∘ value <$> head (getChildren n)))
                    <$> filter (fun n => isNamed "latex:preamble" n = true)
                          (getChildren ast))).
Proof.
  intros Hs Hrun. unfold renderData in Hrun. rewrite Hs, bind_Normal in Hrun.
  destruct (forEach_block tex "preamble" _ _ _ Hrun) as [Hblock Hkey].
  assert (blockOf (marshal tex context options (trim s)) "preamble" =
          "\graphicspath{{"
           +:+ path_relative (latexDirOf context options) (Context.inputDir context)
           +:+ "}}" +:+ LF) as Hliteral.
  { unfold blockOf, get. rewrite marshal_preamble. apply toString_or. }
  rewrite <- (preamble_contents tex). unfold get. rewrite Hkey.
  destruct (targeting "preamble" (getChildren ast)) eqn:Hl.
  - rewrite marshal_preamble. cbn. by rewrite append_empty_r.
  - cbn [default]. by rewrite Hblock, Hliteral.
Qed.

Lemma target_preamble n :
  name n = Some "latex:preamble" -> target n = Some "preamble".
Proof. intros Hn. unfold target, isNamed. rewrite Hn. reflexivity. Qed.

Lemma forEach_normal_inv tex l data data' :
  forEach (extractInto tex) l data = Normal data' ->
  Forall (fun n => name n = Some "latex:preamble" -> getChildren n ≠ []) l.
Proof.
  revert data. induction l as [|x l IH]; intros data; [constructor|].
  cbn [forEach]. destruct (extractInto tex x data) as [d1|e] eqn:Hx; [|done].
  rewrite bind_Normal. intros Hrun. constructor; [|by eapply IH].
  intros Hname Hnil. rewrite extractInto_target in Hx.
  rewrite (target_preamble x Hname), Hnil in Hx. done.
Qed.

Lemma extractInto_throws tex n data e :
  extractInto tex n data = Throw e -> exists msg, e = TypeError msg.
Proof.
  rewrite extractInto_target. destruct (target n); [|done].
  case_match; [|done]. intros [= <-]. by eexists.
Qed.

Lemma forEach_throws tex l data e :
  forEach (extractInto tex) l data = Throw e -> exists msg, e = TypeError msg.
Proof.
  revert data. induction l as [|x l IH]; intros data; [done|].
  cbn [forEach]. destruct (extractInto tex x data) as [d1|e'] eqn:Hx.
  - rewrite bind_Normal. apply IH.
  - intros [= <-]. by eapply extractInto_throws.
Qed.

Lemma renderData_total tex context options ast s :
  tex_tex tex (Some ast) = Some s ->
  preamblesHaveChild ast ->
  exists data, renderData tex context options ast = Normal data.
Proof.
  intros Hs Hpre. unfold renderData. rewrite Hs, bind_Normal.
  destruct (forEach_acknowledgments tex (getChildren ast) Hpre
              (marshal tex context options (trim s))) as (data & Hrun & _).
  by exists data.
Qed.

(** X11: the render data is built exactly when the formatter gives a string
    for the whole tree and every top-level raw preamble node has a first
    child; otherwise a [TypeError] is thrown. *)
Theorem renderData_returns tex context options ast :
  ((exists data, renderData tex context options ast = Normal data) <->
   (is_Some (tex_tex tex (Some ast)) /\ preamblesHaveChild ast)) /\
  (forall e, renderData tex context options ast = Throw e ->
             exists msg, e = TypeError msg).
Proof.
  split; [split|].
  - intros [data Hrun]. split.
    + destruct (renderData_content _ _ _ _ _ Hrun) as [s Hs]. by exists s.
    + unfold renderData in Hrun.
      destruct (tex_tex tex (Some ast)); [|done].
      rewrite bind_Normal in Hrun. by eapply forEach_normal_inv.
  - intros [[s Hs] Hpre]. by eapply renderData_total.
  - intros e. unfold renderData.
    destruct (tex_tex tex (Some ast)).
    + rewrite bind_Normal. apply forEach_throws.
    + intros [= <-]. by eexists.
Qed.

End MoreExtractor.

Section ExtractorSamples.
Import Demo Samples.

Lemma renderData_blocks_witness :
  exists data,
    renderData sampleTex context (options true) (annotate article) = Normal data /\
    data !! "abstract" = Some (VString "We study places.") /\
    data !! "teaser" = None.
Proof.
  assert (tex_tex sampleTex (Some (annotate article)) =
          Some " We study places. Thanks to A. Body.\place{figA}A caption Thanks to B.")
    as Hs by (vm_compute; reflexivity).
  destruct (renderData_total sampleTex context (options true) _ _ Hs) as [data Hrun].
  { unfold preamblesHaveChild. cbn. repeat constructor; discriminate. }
  exists data. split; [exact Hrun|]. split.
  - destruct (renderData_blocks sampleTex context (options true) _ _ _ "abstract" Hs Hrun)
      as (_ & Hsome & _).
    rewrite Hsome; [vm_compute; reflexivity|]. vm_compute. discriminate.
  - destruct (renderData_blocks sampleTex context (options true) _ _ _ "teaser" Hs Hrun)
      as (_ & _ & Hnone).
    rewrite Hnone; vm_compute; reflexivity.
Defined.

Lemma renderData_without_special_nodes_witness :
  renderData sampleTex context (options true) plainArticle =
  Normal (marshal sampleTex context (options true) "Body.A caption").
Proof.
  apply (renderData_without_special_nodes sampleTex context (options true)
           plainArticle "Body.A caption").
  - reflexivity.
  - intros n Hn. cbn in Hn.
    repeat (apply elem_of_cons in Hn as [->|Hn]; [reflexivity|]).
    inversion Hn.
Defined.

Lemma preamble_verbatim_witness :
  exists data,
    renderData sampleTex context (options true) preambleArticle = Normal data /\
    get data "preamble" =
    VString ("\graphicspath{{/home/me/paper}}" +:+ LF +:+ " \usepackage{a} undefined").
Proof.
  assert (tex_tex sampleTex (Some preambleArticle) = Some " \usepackage{a} Body.x")
    as Hs by (vm_compute; reflexivity).
  destruct (renderData_total sampleTex context (options true) _ _ Hs) as [data Hrun].
  { unfold preamblesHaveChild. cbn. repeat constructor; discriminate. }
  exists data. split; [exact Hrun|].
  rewrite (preamble_verbatim sampleTex context (options true) preambleArticle _ _ Hs Hrun).
  vm_compute. reflexivity.
Defined.

Lemma renderData_returns_witness :
  exists msg,
    renderData sampleTex context (options true) brokenArticle = Throw (TypeError msg).
Proof.
  destruct (renderData sampleTex context (options true) brokenArticle) as [data|e] eqn:Hrun.
  - exfalso.
    destruct (proj1 (proj1 (renderData_returns sampleTex context (options true)
                              brokenArticle)) (ex_intro _ data Hrun)) as [_ Hpre].
    unfold preamblesHaveChild in Hpre. cbn in Hpre.
    apply Forall_cons in Hpre as [_ Hpre]. apply Forall_cons in Hpre as [Hpre _].
    by apply Hpre.
  - destruct (proj2 (renderData_returns sampleTex context (options true) brokenArticle)
                e Hrun) as [msg ->].
    by exists msg.
Defined.

End ExtractorSamples.

(** ** White space *)

Lemma trimStart_head s a r : trimStart s = String a r -> isSpace a = false.
Proof.
  induction s as [|c s IH]; [done|]. cbn.
  destruct (isSpace c) eqn:Hc; [done|]. by intros [= <- <-].
Qed.

Lemma trimEnd_head a r :
  isSpace a = false -> exists r', trimEnd (String a r) = String a r'.
Proof.
  intros Ha. cbn. destruct (trimEnd r); [|by eauto].
  rewrite Ha. by eauto.
Qed.

Lemma append_last_inv r a c s :
  r +:+ String a EmptyString = String c s ->
  (r = EmptyString /\ a = c /\ s = EmptyString) \/
  (exists r', r = String c r' /\ s = r' +:+ String a EmptyString).
Proof.
  destruct r as [|x r].
  - intros [= -> <-]. by left.
  - change (String x r +:+ String a "") with (String x (r +:+ String a "")).
    intros [= -> <-]. right. by exists r.
Qed.

Lemma trimEnd_last s r a :
  trimEnd s = r +:+ String a EmptyString -> isSpace a = false.
Proof.
  revert r. induction s as [|c s IH]; intros r.
  - cbn. by destruct r.
  - cbn. destruct (trimEnd s) as [|c' s'] eqn:Hs.
    + destruct (isSpace c) eqn:Hc; [by destruct r|].
      intros Heq. symmetry in Heq.
      apply append_last_inv in Heq as [(_ & -> & _)|(r' & _ & Hr')]; [done|].
      by destruct r'.
    + intros Heq. symmetry in Heq.
      apply append_last_inv in Heq as [(_ & _ & [=])|(r' & -> & Hr')].
      by eapply IH.
Qed.

Lemma trim_noSpaceAround s : noSpaceAround (trim s).
Proof.
  unfold trim. split.
  - intros a r Heq. destruct (trimStart s) as [|c t] eqn:Hs; [done|].
    pose proof (trimStart_head _ _ _ Hs) as Hc.
    destruct (trimEnd_head c t Hc) as [r' Hr']. rewrite Hr' in Heq.
    by injection Heq as <- _.
  - intros r a Heq. by eapply trimEnd_last.
Qed.

Section MoreData.
Context {host : Host}.

Ltac not_block :=
  unfold blocks;
  repeat (apply not_elem_of_cons; split; [discriminate|]);
  apply not_elem_of_nil.

(** ** The fields of the render data *)

Lemma renderData_get tex context options ast data key :
  renderData tex context options ast = Normal data ->
  key ∉ blocks ->
  exists s,
    tex_tex tex (Some ast) = Some s /\
    get data key = get (marshal tex context options (trim s)) key.
Proof.
  intros Hrun Hkey.
  destruct (renderData_content _ _ _ _ _ Hrun) as [s Hs].
  exists s. split; [done|]. unfold get.
  by rewrite (renderData_frame tex context options ast data key s Hs Hrun Hkey).
Qed.

(** X12: an author list that is present is used as it is, even when it is
    empty: the placeholder author only stands in for a missing list.  The
    first author and the others split the list, and the names are joined
    with a comma and a space. *)
Theorem author_list_as_given tex context options ast data l :
  Metadata.author (Context.metadata context) = Some l ->
  renderData tex context options ast = Normal data ->
  get data "author" = VArray l /\
  get data "author_first" = from_option VObject VUndefined (head l) /\
  get data "author_rest" = VArray (tail l) /\
  get data "author_names" = VString (join ", " (Author.name <$> l)) /\
  (forall a, get data "author_first" = VObject a -> l = a :: tail l).
Proof.
  intros Hl Hrun.
  destruct (renderData_get _ _ _ _ _ "author" Hrun ltac:(not_block)) as (s & _ & H1).
  destruct (renderData_get _ _ _ _ _ "author_first" Hrun ltac:(not_block)) as (? & _ & H2).
  destruct (renderData_get _ _ _ _ _ "author_rest" Hrun ltac:(not_block)) as (? & _ & H3).
  destruct (renderData_get _ _ _ _ _ "author_names" Hrun ltac:(not_block)) as (? & _ & H4).
  rewrite H1, H2, H3, H4. unfold get, marshal, authorOf. rewrite Hl, head_lookup.
  repeat split; try reflexivity.
  intros a. change (from_option VObject VUndefined (l !! 0%nat) = VObject a -> l = a :: tail l).
  destruct l as [|b l']; [done|]. cbn. by intros [= ->].
Qed.

Lemma orString_nonempty x d : d ≠ "" -> orString x d ≠ "".
Proof.
  intros Hd. unfold orString. destruct x as [s|]; [|done]. by case_bool_decide.
Qed.

(** X13: the title of the render data is never empty: a title that is missing
    or formats to the empty string gives way to ["Untitled Article"].  The
    date gives way to the date of the day in the same way. *)
Theorem title_and_date_fallback tex context options ast data :
  renderData tex context options ast = Normal data ->
  let metadata := Context.metadata context in
  exists title date,
    get data "title" = VString title /\
    get data "date" = VString date /\
    title ≠ "" /\
    (today ≠ "" -> date ≠ "") /\
    (forall t, tex_tex tex (Metadata.title metadata) = Some t -> t ≠ "" -> title = t) /\
    (tex_tex tex (Metadata.title metadata) = None \/
     tex_tex tex (Metadata.title metadata) = Some "" -> title = "Untitled Article") /\
    (forall d, tex_tex tex (Metadata.date metadata) = Some d -> d ≠ "" -> date = d) /\
    (tex_tex tex (Metadata.date metadata) = None \/
     tex_tex tex (Metadata.date metadata) = Some "" -> date = today).
Proof.
  intros Hrun metadata.
  destruct (renderData_get _ _ _ _ _ "title" Hrun ltac:(not_block)) as (s & _ & H1).
  destruct (renderData_get _ _ _ _ _ "date" Hrun ltac:(not_block)) as (? & _ & H2).
  exists (orString (tex_tex tex (Metadata.title metadata)) "Untitled Article"),
         (orString (tex_tex tex (Metadata.date metadata)) getDate).
  split; [by rewrite H1|]. split; [by rewrite H2|].
  split; [by apply orString_nonempty|].
  split; [intros Hd; by apply orString_nonempty|].
  unfold orString, getDate. repeat split.
  - intros t -> Ht. by rewrite bool_decide_eq_false_2.
  - by intros [->| ->].
  - intros d -> Hd. by rewrite bool_decide_eq_false_2.
  - by intros [->| ->].
Qed.

(** X14: the main content of the render data is the formatted tree without
    the white space around it. *)
Theorem content_is_trimmed tex context options ast data :
  renderData tex context options ast = Normal data ->
  exists s,
    tex_tex tex (Some ast) = Some s /\
    get data "content" = VString (trim s) /\
    noSpaceAround (trim s).
Proof.
  intros Hrun.
  destruct (renderData_get _ _ _ _ _ "content" Hrun ltac:(not_block)) as (s & Hs & H1).
  exists s. split; [done|]. split; [by rewrite H1|]. apply trim_noSpaceAround.
Qed.

End MoreData.

Section DataSamples.
Import Demo Samples.

Lemma sample_renderData :
  exists data, renderData sampleTex context (options true) plainArticle = Normal data.
Proof.
  apply (renderData_total _ _ _ _ "Body.A caption"); [reflexivity|].
  unfold preamblesHaveChild. cbn. repeat constructor; discriminate.
Qed.

Lemma author_list_as_given_witness :
  (exists data,
      renderData sampleTex (contextWith (Some [ada; grace])) (options true) plainArticle
        = Normal data /\
      get data "author_first" = VObject ada /\
      get data "author_rest" = VArray [grace] /\
      get data "author_names" = VString "Ada, Grace") /\
  (exists data,
      renderData sampleTex (contextWith (Some [])) (options true) plainArticle
        = Normal data /\
      get data "author" = VArray [] /\
      get data "author_first" = VUndefined /\
      get data "author_names" = VString "").
Proof.
  split.
  - destruct (renderData_total sampleTex (contextWith (Some [ada; grace])) (options true)
                plainArticle "Body.A caption" eq_refl) as [data Hrun].
    { unfold preamblesHaveChild. cbn. repeat constructor; discriminate. }
    exists data. split; [exact Hrun|].
    destruct (author_list_as_given sampleTex (contextWith (Some [ada; grace]))
                (options true) plainArticle data [ada; grace] eq_refl Hrun)
      as (_ & H2 & H3 & H4 & _).
    by rewrite H2, H3, H4.
  - destruct (renderData_total sampleTex (contextWith (Some [])) (options true)
                plainArticle "Body.A caption" eq_refl) as [data Hrun].
    { unfold preamblesHaveChild. cbn. repeat constructor; discriminate. }
    exists data. split; [exact Hrun|].
    destruct (author_list_as_given sampleTex (contextWith (Some []))
                (options true) plainArticle data [] eq_refl Hrun)
      as (H1 & H2 & _ & H4 & _).
    by rewrite H1, H2, H4.
Defined.

Lemma title_and_date_fallback_witness :
  exists data,
    renderData sampleTex context (options true) plainArticle = Normal data /\
    get data "title" = VString "Places" /\
    get data "date" = VString "November 2, 2026".
Proof.
  destruct sample_renderData as [data Hrun]. exists data. split; [exact Hrun|].
  destruct (title_and_date_fallback _ _ _ _ _ Hrun)
    as (title & date & -> & -> & _ & _ & Ht & _ & _ & Hd).
  split.
  - f_equal. by apply Ht.
  - f_equal. apply Hd. by left.
Defined.

Lemma content_is_trimmed_witness :
  exists data s,
    renderData sampleTex context (options true) plainArticle = Normal data /\
    get data "content" = VString (trim s) /\ noSpaceAround (trim s).
Proof.
  destruct sample_renderData as [data Hrun].
  destruct (content_is_trimmed _ _ _ _ _ Hrun) as (s & _ & Hc & Hno).
  by exists data, s.
Defined.

End DataSamples.

Section MoreDriver.
Context {host : Host}.

(** ** The outcomes of the compile entry *)

Lemma invocations_app t1 t2 : invocations (t1 ++ t2) = invocations t1 ++ invocations t2.
Proof. apply omap_app. Qed.

Lemma invocations_none t : Forall (fun e => ~ isPdflatex e) t -> invocations t = [].
Proof.
  induction 1 as [|e t He _ IH]; [done|].
  unfold invocations in *. cbn. rewrite IH.
  destruct e as [[] ?| |]; cbn in *; tauto || done.
Qed.

Lemma compile_inv ast context options w r t w' :
  compile ast context options w = (r, t, w') ->
  (exists content te we tt,
      emit ast context options w = (Normal content, te, we) /\
      typeset context options we = (r, tt, w') /\
      t = te ++ tt /\
      Forall (fun e => ~ isPdflatex e) te) \/
  (exists e,
      emit ast context options w = (Throw e, t, w') /\ r = Throw e /\
      Forall (fun e => ~ isPdflatex e) t).
Proof.
  intros Hrun. unfold compile in Hrun.
  pose proof (emit_emits ast context options w) as He. unfold trace in He.
  apply bind_inv in Hrun as [(c & te & we & tt & Hemit & Ht & ->)|(e & Hemit & ->)];
    rewrite Hemit in He; cbn in He.
  - left. by exists c, te, we, tt.
  - right. by exists e.
Qed.

(** X15: a path returned by the compile entry is the latex directory when no
    PDF was asked for, and otherwise the path of the PDF in the output
    directory, after the typesetting compiler has succeeded and the PDF
    has been copied there from the latex directory, as the last two calls
    of the run. *)
Theorem compile_returns_path ast context options w p :
  result (compile ast context options) w = Normal (Some p) ->
  (pdfOf options = false /\ p = latexDirOf context options) \/
  (pdfOf options = true /\ p = pdfPath context /\
   exists pre debug,
     trace (compile ast context options) w =
     pre ++ [LogDebug debug;
             Sys (Pdflatex (latexDirOf context options) (articleNameOf context)
                    (bibtexOf context)) true;
             Sys (Copy (pdfSource context options) (pdfPath context)) true]).
Proof.
  unfold result, trace.
  destruct (compile ast context options w) as [[r t] w'] eqn:Hrun. cbn. intros ->.
  apply compile_inv in Hrun as [(c & te & we & tt & _ & Ht & -> & _)|(e & _ & [=] & _)].
  destruct (pdfOf options) eqn:Hpdf.
  - right. split; [done|].
    rewrite typeset_with_pdf in Ht by done. cbn zeta in Ht.
    destruct (run_pdflatex _ _ _ we) as [[[]|err] w1]; [|done].
    destruct (fs_copy _ _ w1) as [[[]|err] w2]; [|done].
    injection Ht as <- <- <-. split; [done|]. by eexists te, _.
  - left. split; [done|].
    rewrite typeset_without_pdf in Ht by done. by injection Ht as <- _ _.
Qed.


(** X17: the typesetting compiler is invoked at most once in a run, with the
    latex directory, the name of the article and whether there are
    bibliography entries: a failed attempt is not tried again. *)
Theorem compile_invokes_once ast context options w :
  invocations (trace (compile ast context options) w) = [] \/
  invocations (trace (compile ast context options) w) =
    [Pdflatex (latexDirOf context options) (articleNameOf context) (bibtexOf context)].
Proof.
  unfold trace.
  destruct (compile ast context options w) as [[r t] w'] eqn:Hrun. cbn.
  apply compile_inv in Hrun as [(c & te & we & tt & _ & Ht & -> & Hte)|(e & _ & _ & Ht)];
    [|left; by apply invocations_none].
  rewrite invocations_app, (invocations_none te Hte). cbn.
  destruct (pdfOf options) eqn:Hpdf.
  - right. rewrite typeset_with_pdf in Ht by done. cbn zeta in Ht.
    destruct (run_pdflatex _ _ _ we) as [[[]|err] w1].
    + by destruct (fs_copy _ _ w1) as [[[]|err] w2]; injection Ht as <- <- <-.
    + by injection Ht as <- <- <-.
  - left. rewrite typeset_without_pdf in Ht by done. by injection Ht as <- <- <-.
Qed.

(** ** The first steps of a run *)

Lemma createDirectories_run context options w :
  createDirectories context options w =
  match fs_mkdir (Context.outputDir context) w with
  | (p1, w1) =>
      match fs_mkdir (latexDirOf context options) w1 with
      | (p2, w2) =>
          (match Promise_all [Some p1; Some p2] with
           | Fulfilled a => Normal a
           | Rejected e => Throw e
           end,
           [Sys (Mkdir (Context.outputDir context)) (fulfilled p1);
            Sys (Mkdir (latexDirOf context options)) (fulfilled p2)],
           w2)
      end
  end.
Proof.
  unfold createDirectories. rewrite run_bind. unfold mkdirp at 1, invoke at 1.
  destruct (fs_mkdir (Context.outputDir context) w) as [p1 w1].
  rewrite run_bind. unfold mkdirp, invoke.
  destruct (fs_mkdir (latexDirOf context options) w1) as [p2 w2].
  rewrite await_run. by destruct (Promise_all _).
Qed.

Lemma compile_render_inv ast context options w r t w' :
  compile ast context options w = (r, t, w') ->
  exists rr tr wr rest,
    render ast context options w = (rr, tr, wr) /\
    t = tr ++ rest /\
    (forall e, rr = Throw e -> rest = [] /\ r = Throw e).
Proof.
  intros Hrun.
  apply compile_inv in Hrun as [(c & te & we & tt & Hemit & _ & -> & _)|(e & Hemit & -> & _)];
    apply emit_inv in Hemit
      as [(tex & pkg & content & tr & wr & r' & tw & Hr & _ & -> & _)|(e' & Hr & He)].
  - exists (Normal (tex, pkg, content)), tr, wr, (tw ++ tt).
    by rewrite app_assoc.
  - done.
  - exists (Normal (tex, pkg, content)), tr, wr, tw. done.
  - exists (Throw e'), t, w', []. rewrite app_nil_r. split; [done|]. split; [done|].
    intros e0 [= <-]. injection He as ->. by split.
Qed.

Lemma render_first_steps ast context options w r t w' :
  render ast context options w = (r, t, w') ->
  exists ok1 ok2 rest,
    t = Sys (Mkdir (Context.outputDir context)) ok1
        :: Sys (Mkdir (latexDirOf context options)) ok2 :: rest /\
    (ok1 = false \/ ok2 = false -> rest = [] /\ exists e, r = Throw e) /\
    (forall e, places ast = Throw e ->
       rest = [] /\ exists e', r = Throw e' /\ (ok1 = true -> ok2 = true -> e' = e)).
Proof.
  unfold render. intros Hrun.
  apply bind_inv in Hrun as [([] & t1 & w1 & t2 & Hdirs & Hrun & ->)|(e & Hdirs & ->)];
    rewrite createDirectories_run in Hdirs;
    destruct (fs_mkdir (Context.outputDir context) w) as [p1 w1'];
    destruct (fs_mkdir (latexDirOf context options) w1') as [p2 w2'].
  - exists (fulfilled p1), (fulfilled p2), t2.
    destruct p1 as [[]|e1]; [|done]. destruct p2 as [[]|e2]; [|done].
    injection Hdirs as <- <-. split; [done|]. split; [by intros [|]|].
    intros e Hplaces.
    apply bind_inv in Hrun as [(a & t3 & w3 & t4 & Hp & _)|(e' & Hp & ->)];
      unfold lift in Hp; rewrite Hplaces in Hp; [done|].
    injection Hp as <- <- <-. split; [done|]. by exists e.
  - exists (fulfilled p1), (fulfilled p2), [].
    destruct (Promise_all [Some p1; Some p2]) as [[]|e0] eqn:Hall; [done|].
    injection Hdirs as <- <- <-. split; [done|]. split; [by eauto|].
    intros e' _. split; [done|]. exists e0. split; [done|].
    intros Hok1 Hok2. by destruct p1 as [[]|], p2 as [[]|].
Qed.

(** X18: every run begins by creating the output directory and the latex
    directory, in this order; when either creation is rejected the run
    makes no other call and throws. *)
Theorem compile_creates_directories_first ast context options w :
  exists ok1 ok2 rest,
    trace (compile ast context options) w =
      Sys (Mkdir (Context.outputDir context)) ok1
      :: Sys (Mkdir (latexDirOf context options)) ok2 :: rest /\
    (ok1 = false \/ ok2 = false ->
     rest = [] /\ exists e, result (compile ast context options) w = Throw e).
Proof.
  unfold trace, result.
  destruct (compile ast context options w) as [[r t] w'] eqn:Hrun. cbn.
  apply compile_render_inv in Hrun as (rr & tr & wr & rest & Hr & -> & Hthrow).
  apply render_first_steps in Hr as (ok1 & ok2 & rest' & -> & Hrej & _).
  exists ok1, ok2, (rest' ++ rest). split; [done|].
  intros (-> & e & ->)%Hrej. destruct (Hthrow e eq_refl) as [-> ->].
  split; [done|]. by exists e.
Qed.

(** X19: when [places] throws on the tree, the run stops there: the two
    directories are the only calls made, nothing is read, written or
    typeset, and the error is thrown on. *)
Theorem compile_stops_on_malformed_tree ast context options w e :
  places ast = Throw e ->
  exists ok1 ok2 e',
    trace (compile ast context options) w =
      [Sys (Mkdir (Context.outputDir context)) ok1;
       Sys (Mkdir (latexDirOf context options)) ok2] /\
    result (compile ast context options) w = Throw e' /\
    (ok1 = true -> ok2 = true -> e' = e).
Proof.
  intros Hplaces. unfold trace, result.
  destruct (compile ast context options w) as [[r t] w'] eqn:Hrun. cbn.
  apply compile_render_inv in Hrun as (rr & tr & wr & rest & Hr & -> & Hthrow).
  apply render_first_steps in Hr as (ok1 & ok2 & rest' & -> & _ & Hstop).
  destruct (Hstop e Hplaces) as (-> & e' & -> & He').
  destruct (Hthrow e' eq_refl) as [-> ->].
  by exists ok1, ok2, e'.
Qed.

End MoreDriver.

Section MoreOutput.
Context {host : Host}.

Ltac emits_step :=
  first
    [ apply emits_ret
    | apply emits_lift
    | apply emits_await
    | apply emits_log
    | apply emits_invoke; intros ?
    | apply emits_mapM; intros ?
    | apply emits_tryCatch; [|intros ?]
    | apply emits_bind; [|intros ?]
    | match goal with
      | |- emits (let '(_, _) := ?x in _) _ => destruct x
      | |- emits (match ?x with _ => _ end) _ => destruct x
      | |- emits (if ?b then _ else _) _ => destruct b
      end ].

Ltac emits_auto := repeat emits_step; cbn; try tauto.

(** ** The writes of a run *)

Lemma Promise_all_Some ps :
  Promise_all (Some <$> ps) = Fulfilled () <-> Forall (fun p => fulfilled p = true) ps.
Proof.
  induction ps as [|p ps IH]; [done|].
  rewrite Forall_cons. destruct p as [[]|e]; cbn.
  - rewrite <- IH. tauto.
  - split; [done|]. by intros [? _].
Qed.

Lemma callsOf_settle cs ps :
  length ps = length cs -> callsOf (settle cs ps) = cs.
Proof.
  revert ps. induction cs as [|c cs IH]; intros [|p ps]; try done.
  intros [= Hlen]. unfold callsOf, settle in *. cbn. by rewrite IH.
Qed.

Lemma someRejected_settle cs ps :
  length ps = length cs ->
  someRejected (settle cs ps) <-> ~ Forall (fun p => fulfilled p = true) ps.
Proof.
  revert ps. induction cs as [|c cs IH]; intros [|p ps]; try done.
  - intros _. split; [intros [c Hc]; inversion Hc|]. intros Hno. by destruct Hno.
  - intros [= Hlen]. specialize (IH ps Hlen).
    unfold someRejected, settle in *. cbn. rewrite Forall_cons. split.
    + intros [c' Hc']. apply elem_of_cons in Hc' as [[= <- Hok]|Hc'].
      * intros [Hp _]. congruence.
      * intros [_ Hps]. apply IH; [by eexists|done].
    + intros Hnot. destruct (fulfilled p) eqn:Hp.
      * destruct (proj2 IH) as [c' Hc']; [tauto|]. exists c'. by right.
      * exists c. left.
Qed.

Lemma copies_run_exact pkg context options l w :
  exists ps w',
    length ps = length l /\
    mapM (fun f => copy (path_join (Package.dir pkg) f)
                        (path_join (latexDirOf context options) (path_parse_base f))) l w
    = (Normal ps,
       settle ((fun f => Copy (path_join (Package.dir pkg) f)
                              (path_join (latexDirOf context options) (path_parse_base f)))
                 <$> l) ps,
       w').
Proof.
  revert w. induction l as [|x l IH]; intros w.
  - by exists [], w.
  - cbn [mapM]. rewrite run_bind. unfold copy at 1, invoke at 1.
    destruct (fs_copy _ _ w) as [p w1].
    rewrite run_bind. destruct (IH w1) as (ps & w2 & Hlen & ->).
    rewrite run_ret. exists (p :: ps), w2. split; [by cbn; rewrite Hlen|].
    by rewrite app_nil_r.
Qed.

Ltac closing Hlen :=
  rewrite ?(bool_decide_eq_true_2 ("" = "")) by done;
  cbn [negb app length fmap list_fmap settle zip_with Promise_all];
  rewrite ?length_fmap, ?app_nil_r, ?Hlen;
  split; [reflexivity|reflexivity].

(** [writeOutput] in closed form: the calls it issues are settled one
    after the other, whatever their outcomes, and the first rejection, if
    any, is thrown after the last call. *)
Lemma writeOutput_run tex pkg content context options w :
  exists ps w',
    length ps = length (outputCalls tex pkg content context options) /\
    writeOutput tex pkg content context options w =
    (match Promise_all (Some <$> ps) with
     | Fulfilled a => Normal a
     | Rejected e => Throw e
     end,
     settle (outputCalls tex pkg content context options) ps,
     w').
Proof.
  unfold writeOutput, outputCalls. rewrite run_bind.
  destruct (writeFile_cases (texPath context options) content w)
    as [[-> Hsrc]|(Hne & p1 & w1 & Hsrc)]; unfold texPath in Hsrc; rewrite Hsrc;
    rewrite run_bind.
  - destruct (bibtexOf context) eqn:Hbib; cbn [andb].
    + rewrite run_bind.
      destruct (writeFile_cases (bibPath context options) (bibText tex context) w)
        as [[Hempty Hb]|(Hbne & p2 & w2 & Hb)]; unfold bibPath, bibText in *;
        rewrite Hb, run_ret, run_bind.
      * rewrite Hempty.
        destruct (copies_run_exact pkg context options (default [] (Package.files pkg)) w)
          as (ps & w3 & Hlen & ->).
        rewrite await_run. exists ps, w3. closing Hlen.
      * rewrite (bool_decide_eq_false_2 _ Hbne).
        destruct (copies_run_exact pkg context options (default [] (Package.files pkg)) w2)
          as (ps & w3 & Hlen & ->).
        rewrite await_run. exists (p2 :: ps), w3. closing Hlen.
    + rewrite run_ret, run_bind.
      destruct (copies_run_exact pkg context options (default [] (Package.files pkg)) w)
        as (ps & w3 & Hlen & ->).
      rewrite await_run. exists ps, w3. closing Hlen.
  - rewrite (bool_decide_eq_false_2 _ Hne).
    destruct (bibtexOf context) eqn:Hbib; cbn [andb].
    + rewrite run_bind.
      destruct (writeFile_cases (bibPath context options) (bibText tex context) w1)
        as [[Hempty Hb]|(Hbne & p2 & w2 & Hb)]; unfold bibPath, bibText in *;
        rewrite Hb, run_ret, run_bind.
      * rewrite Hempty.
        destruct (copies_run_exact pkg context options (default [] (Package.files pkg)) w1)
          as (ps & w3 & Hlen & ->).
        rewrite await_run. exists (p1 :: ps), w3. closing Hlen.
      * rewrite (bool_decide_eq_false_2 _ Hbne).
        destruct (copies_run_exact pkg context options (default [] (Package.files pkg)) w2)
          as (ps & w3 & Hlen & ->).
        rewrite await_run. exists (p1 :: p2 :: ps), w3. closing Hlen.
    + rewrite run_ret, run_bind.
      destruct (copies_run_exact pkg context options (default [] (Package.files pkg)) w1)
        as (ps & w3 & Hlen & ->).
      rewrite await_run. exists (p1 :: ps), w3. closing Hlen.
Qed.

(** X20: [writeOutput] issues the write of the source (unless the content is
    empty), the write of the bibliography (when there are entries and
    their text is not empty) and one copy per auxiliary file of the
    template, each to the latex directory under its base name, in this
    order; it issues all of them even when an earlier one is rejected. *)
Theorem writeOutput_issues_all_calls tex pkg content context options w :
  callsOf (trace (writeOutput tex pkg content context options) w)
  = outputCalls tex pkg content context options.
Proof.
  destruct (writeOutput_run tex pkg content context options w) as (ps & w' & Hlen & Hrun).
  unfold trace. rewrite Hrun. cbn. by apply callsOf_settle.
Qed.

(** X21: [writeOutput] completes exactly when none of its calls is rejected;
    otherwise it throws, after the last call. *)
Theorem writeOutput_throws_on_rejection tex pkg content context options w :
  (result (writeOutput tex pkg content context options) w = Normal () <->
   ~ someRejected (trace (writeOutput tex pkg content context options) w)) /\
  ((exists e, result (writeOutput tex pkg content context options) w = Throw e) <->
   someRejected (trace (writeOutput tex pkg content context options) w)).
Proof.
  destruct (writeOutput_run tex pkg content context options w) as (ps & w' & Hlen & Hrun).
  unfold trace, result. rewrite Hrun. cbn.
  rewrite (someRejected_settle _ _ Hlen), <- Promise_all_Some.
  destruct (Promise_all (Some <$> ps)) as [[]|e].
  - split; split.
    + intros _ H. by apply H.
    + done.
    + by intros [? ?].
    + intros H. by destruct H.
  - split; split.
    + done.
    + intros H. exfalso. apply H. by intros ?.
    + by intros _ ?.
    + intros _. by eexists.
Qed.

End MoreOutput.

Section MoreEntry.
Context {host : Host}.

Ltac emits_step :=
  first
    [ apply emits_ret
    | apply emits_lift
    | apply emits_await
    | apply emits_log
    | apply emits_invoke; intros ?
    | apply emits_mapM; intros ?
    | apply emits_tryCatch; [|intros ?]
    | apply emits_bind; [|intros ?]
    | match goal with
      | |- emits (let '(_, _) := ?x in _) _ => destruct x
      | |- emits (match ?x with _ => _ end) _ => destruct x
      | |- emits (if ?b then _ else _) _ => destruct b
      end ].

Ltac emits_auto := repeat emits_step; cbn; try tauto.

(** ** Where a run puts files *)

Lemma render_emits_setup ast context options :
  emits (render ast context options) isSetup.
Proof.
  unfold render, createDirectories, mkdirp, resolveTemplate, loadTemplate,
    generate, readFile.
  emits_auto.
Qed.

Lemma writeOutput_emits_targets tex pkg content context options :
  emits (writeOutput tex pkg content context options)
    (fun e => staysInLatexDir context options e /\ ~ isRead e).
Proof.
  unfold writeOutput, writeFile, copy. emits_auto; split; eauto.
Qed.

Lemma typeset_emits_targets context options :
  emits (typeset context options)
    (fun e => staysInLatexDir context options e /\ ~ isRead e).
Proof.
  unfold typeset, pdflatex, copy. emits_auto.
Qed.


(** ** Failures before the typesetting compiler *)

(** X23: a rejected write of the source or of the bibliography is fatal: the
    run throws and the typesetting compiler is not invoked. *)
Theorem compile_rejected_write_is_fatal ast context options w path data :
  Sys (WriteFile path data) false ∈ trace (compile ast context options) w ->
  (exists e, result (compile ast context options) w = Throw e) /\
  invocations (trace (compile ast context options) w) = [].
Proof.
  unfold trace, result.
  destruct (compile ast context options w) as [[r t] w'] eqn:Hrun. cbn. intros Hin.
  apply compile_inv in Hrun as [(c & te & we & tt & He & Ht & -> & _)|(e & _ & -> & Hno)];
    [|split; [by eexists|by apply invocations_none]].
  exfalso.
  apply elem_of_app in Hin as [Hin|Hin].
  2: { pose proof (typeset_emits context options we) as Hty.
       unfold trace in Hty. rewrite Ht in Hty. cbn in Hty.
       rewrite Forall_forall in Hty. by destruct (Hty _ Hin). }
  apply emit_inv in He
    as [(tex & pkg & content & tr & wr & r' & tw & Hr & Hw & -> & Hc)|(e & _ & [=])].
  assert (r' = Normal ()) as -> by (by destruct r' as [[]|]).
  apply elem_of_app in Hin as [Hin|Hin].
  { pose proof (render_emits ast context options w) as Hre.
    unfold trace in Hre. rewrite Hr in Hre. cbn in Hre.
    rewrite Forall_forall in Hre. destruct (Hre _ Hin) as [_ Hnw]. by destruct Hnw. }
  apply writeOutput_inv in Hw as (src & bib & copies & -> & Hcp & Hsrc & Hbib).
  rewrite !elem_of_app in Hin. destruct Hin as [Hin|[Hin|Hin]].
  - destruct Hsrc as [[_ ->]|(_ & ok & -> & Hok)]; [inversion Hin|].
    apply list_elem_of_singleton in Hin as [= _ _ <-]. by specialize (Hok eq_refl).
  - destruct Hbib as [[_ ->]|(_ & _ & ok & -> & Hok)]; [inversion Hin|].
    apply list_elem_of_singleton in Hin as [= _ _ <-]. by specialize (Hok eq_refl).
  - rewrite Forall_forall in Hcp. by destruct (Hcp _ Hin).
Qed.

Lemma resolveTemplate_failed_read id w r t w' p :
  resolveTemplate id w = (r, t, w') ->
  Sys (ReadFile p) false ∈ t ->
  p ≠ path_join id "package.json" ->
  exists e, r = Throw e.
Proof.
  unfold resolveTemplate, tryCatch. rewrite loadTemplate_run.
  destruct (fs_readFile (path_join id "package.json") w) as [p1 w1].
  assert (forall r1,
            (let '(r0, t0, w0) := loadTemplate (builtinTemplateDir id) w1 in
             (r0, Sys (ReadFile (path_join id "package.json")) r1 :: t0, w0)) = (r, t, w') ->
            Sys (ReadFile p) false ∈ t ->
            p ≠ path_join id "package.json" ->
            exists e, r = Throw e) as Hfallback.
  { intros r1 Hrun Hin Hne. rewrite loadTemplate_run in Hrun.
    destruct (fs_readFile _ w1) as [p2 w2]. injection Hrun as <- <- <-.
    apply elem_of_cons in Hin as [[= -> _]|Hin]; [done|].
    apply list_elem_of_singleton in Hin as [= _ Hok].
    destruct p2 as [text|e]; [done|]. by exists e. }
  destruct p1 as [text|e1]; cbn.
  - destruct (JSON_parse text) as [m|e]; cbn.
    + intros [= <- <- <-] Hin _. by apply list_elem_of_singleton in Hin.
    + apply Hfallback.
  - apply Hfallback.
Qed.

Lemma generate_failed_read pkg data options w r t w' p :
  generate pkg data options w = (r, t, w') ->
  Sys (ReadFile p) false ∈ t ->
  exists e, r = Throw e.
Proof.
  unfold generate. destruct (Package.template pkg) as [f|].
  - rewrite run_bind, run_ret, run_bind. unfold readFile, invoke.
    destruct (fs_readFile _ w) as [[tmpl|e] w1].
    + rewrite run_bind, await_run. unfold lift.
      intros [= <- <- <-] Hin. cbn in Hin.
      by apply list_elem_of_singleton in Hin.
    + rewrite run_bind, await_run. intros [= <- <- <-] _. by exists e.
  - rewrite run_bind. unfold lift. intros [= <- <- <-] Hin. inversion Hin.
Qed.

Lemma render_failed_read ast context options w r t w' p :
  render ast context options w = (r, t, w') ->
  Sys (ReadFile p) false ∈ t ->
  p ≠ path_join (templateOf options) "package.json" ->
  exists e, r = Throw e.
Proof.
  unfold render. intros Hrun Hin Hne.
  apply bind_inv in Hrun as [([] & t1 & w1 & t2 & Hdirs & Hrun & ->)|(e & _ & ->)];
    [|by eauto].
  rewrite createDirectories_run in Hdirs.
  destruct (fs_mkdir (Context.outputDir context) w) as [p1 w1'].
  destruct (fs_mkdir (latexDirOf context options) w1') as [p2 w2'].
  injection Hdirs as _ <- _.
  apply elem_of_app in Hin as [Hin|Hin].
  { repeat (apply elem_of_cons in Hin as [[=]|Hin]). inversion Hin. }
  apply bind_inv in Hrun as [([ast1 pl] & t3 & w3 & t4 & Hp & Hrun & ->)|(e & _ & ->)];
    [|by eauto].
  unfold lift in Hp. injection Hp as _ <- <-. cbn in Hin.
  apply bind_inv in Hrun as [(data & t5 & w5 & t6 & Hd & Hrun & ->)|(e & _ & ->)];
    [|by eauto].
  unfold lift in Hd. injection Hd as _ <- <-. cbn in Hin.
  apply bind_inv in Hrun as [(pkg & t7 & w7 & t8 & Hres & Hrun & ->)|(e & _ & ->)];
    [|by eauto].
  apply elem_of_app in Hin as [Hin|Hin].
  { by destruct (resolveTemplate_failed_read _ _ _ _ _ _ Hres Hin Hne). }
  apply bind_inv in Hrun as [(content & t9 & w9 & t10 & Hgen & Hrun & ->)|(e & _ & ->)];
    [|by eauto].
  rewrite run_ret in Hrun. injection Hrun as <- <- <-. rewrite app_nil_r in Hin.
  by destruct (generate_failed_read _ _ _ _ _ _ _ _ Hgen Hin).
Qed.

(** X24: a rejected read other than the first attempt at the manifest is
    fatal: when the manifest cannot be read under the built-in template
    directory either, or the template file cannot be read, the run throws,
    having only created directories and read files: nothing is written,
    copied or typeset. *)
Theorem compile_failed_read_is_fatal ast context options w p :
  Sys (ReadFile p) false ∈ trace (compile ast context options) w ->
  p ≠ path_join (templateOf options) "package.json" ->
  (exists e, result (compile ast context options) w = Throw e) /\
  Forall isSetup (trace (compile ast context options) w).
Proof.
  unfold trace, result.
  destruct (compile ast context options w) as [[r t] w'] eqn:Hrun. cbn.
  intros Hin Hne.
  assert (exists rr tr wr rest,
             render ast context options w = (rr, tr, wr) /\ t = tr ++ rest /\
             (forall e, rr = Throw e -> rest = [] /\ r = Throw e) /\
             Forall (fun e => ~ isRead e) rest) as (rr & tr & wr & rest & Hr & -> & Hthrow & Hrest).
  { assert (forall c, Forall (fun e => ~ isRead e) (trace (typeset context options) c))
      as Hty.
    { intros c. eapply Forall_impl; [apply typeset_emits_targets|]. by intros ? [_ ?]. }
    assert (forall tex pkg content c,
               Forall (fun e => ~ isRead e)
                 (trace (writeOutput tex pkg content context options) c)) as Hwo.
    { intros ????. eapply Forall_impl; [apply writeOutput_emits_targets|].
      by intros ? [_ ?]. }
    unfold trace in Hty, Hwo.
    apply compile_inv in Hrun
      as [(c & te & we & tt & Hemit & Ht & -> & _)|(e & Hemit & -> & _)];
      apply emit_inv in Hemit
        as [(tex & pkg & content & tr & wr & r' & tw & Hr & Hw & -> & _)|(e' & Hr & He)].
    - exists (Normal (tex, pkg, content)), tr, wr, (tw ++ tt).
      rewrite app_assoc. repeat split; [done..|].
      apply Forall_app. split.
      + specialize (Hwo tex pkg content wr). by rewrite Hw in Hwo.
      + specialize (Hty we). by rewrite Ht in Hty.
    - done.
    - exists (Normal (tex, pkg, content)), tr, wr, tw. repeat split; [done..|].
      specialize (Hwo tex pkg content wr). by rewrite Hw in Hwo.
    - exists (Throw e'), t, w', []. rewrite app_nil_r.
      split; [done|]. split; [done|]. split; [|done].
      intros e1 [= <-]. injection He as ->. by split. }
  apply elem_of_app in Hin as [Hin|Hin].
  2: { rewrite Forall_forall in Hrest. by destruct (Hrest _ Hin). }
  destruct (render_failed_read _ _ _ _ _ _ _ _ Hr Hin Hne) as [e ->].
  destruct (Hthrow e eq_refl) as [-> ->]. split; [by exists e|].
  rewrite app_nil_r.
  pose proof (render_emits_setup ast context options w) as Hsetup.
  unfold trace in Hsetup. by rewrite Hr in Hsetup.
Qed.

(** ** What the rendered content is made from *)

Lemma loadTemplate_normal dir w pkg t w' :
  loadTemplate dir w = (Normal pkg, t, w') ->
  Package.dir pkg = dir /\
  t = [Sys (ReadFile (path_join dir "package.json")) true].
Proof.
  rewrite loadTemplate_run. destruct (fs_readFile _ w) as [[text|e] w1]; [|done].
  cbn. destruct (JSON_parse text) as [m|e]; [|done].
  cbn. by intros [= <- <- <-].
Qed.

Lemma resolveTemplate_normal id w pkg t w' :
  resolveTemplate id w = (Normal pkg, t, w') ->
  (Package.dir pkg = id \/ Package.dir pkg = builtinTemplateDir id) /\
  Sys (ReadFile (path_join (Package.dir pkg) "package.json")) true ∈ t.
Proof.
  unfold resolveTemplate, tryCatch.
  destruct (loadTemplate id w) as [[[pkg1|e] t1] w1] eqn:Hfirst.
  - intros [= <- <- <-]. apply loadTemplate_normal in Hfirst as [Hdir ->].
    rewrite Hdir. split; [by left|by left].
  - destruct (loadTemplate (builtinTemplateDir id) w1) as [[[pkg2|e2] t2] w2] eqn:Hsecond;
      [|done].
    intros [= <- <- <-]. apply loadTemplate_normal in Hsecond as [Hdir ->].
    rewrite Hdir. split; [by right|]. apply elem_of_app. right. by left.
Qed.

(** X25: the rendered content is what mustache makes, with the configured
    tags, of the render data of the walked tree and of the text of the
    template file; that file is read from the directory of the package
    whose manifest was loaded, which is the template identifier itself or
    the built-in directory of that identifier. *)
Theorem render_provenance ast context options w tex pkg content :
  result (render ast context options) w = Normal (tex, pkg, content) ->
  exists ast' places' data f tmpl w1 w2,
    places ast = Normal (ast', places') /\
    tex = formatter context options places' /\
    renderData tex context options ast' = Normal data /\
    (Package.dir pkg = templateOf options \/
     Package.dir pkg = builtinTemplateDir (templateOf options)) /\
    Sys (ReadFile (path_join (Package.dir pkg) "package.json")) true
      ∈ trace (render ast context options) w /\
    Package.template pkg = Some f /\
    fs_readFile (path_join (Package.dir pkg) f) w1 = (Fulfilled tmpl, w2) /\
    mustache_render tmpl data (tagsOf options) = Normal content.
Proof.
  unfold result, trace.
  destruct (render ast context options w) as [[r t] w'] eqn:Hrun. cbn. intros ->.
  unfold render in Hrun.
  apply bind_inv in Hrun as [([] & t1 & w1 & t2 & _ & Hrun & ->)|(e & _ & [=])].
  apply bind_inv in Hrun as [([ast1 pl] & t3 & w3 & t4 & Hp & Hrun & ->)|(e & _ & [=])].
  unfold lift in Hp. injection Hp as Hp <- <-.
  apply bind_inv in Hrun as [(data & t5 & w5 & t6 & Hd & Hrun & ->)|(e & _ & [=])].
  unfold lift in Hd. injection Hd as Hd <- <-.
  apply bind_inv in Hrun as [(pkg' & t7 & w7 & t8 & Hres & Hrun & ->)|(e & _ & [=])].
  apply bind_inv in Hrun as [(c & t9 & w9 & t10 & Hgen & Hrun & ->)|(e & _ & [=])].
  rewrite run_ret in Hrun. injection Hrun as <- <- <- <- <-.
  apply resolveTemplate_normal in Hres as [Hdir Hmanifest].
  unfold generate in Hgen. destruct (Package.template pkg') as [f|] eqn:Hf.
  2: { rewrite run_bind in Hgen. unfold lift in Hgen. done. }
  rewrite run_bind, run_ret, run_bind in Hgen. unfold readFile, invoke in Hgen.
  destruct (fs_readFile (path_join (Package.dir pkg') f) w7) as [[tmpl|e] w8] eqn:Hread.
  2: { rewrite run_bind, await_run in Hgen. done. }
  rewrite run_bind, await_run in Hgen. unfold lift in Hgen.
  destruct (mustache_render tmpl data (tagsOf options)) as [c'|e] eqn:Hm; [|done].
  injection Hgen as <- <- <-.
  exists ast1, pl, data, f, tmpl, w7, w8.
  repeat split; try done.
  rewrite !elem_of_app. right. right. right. by left.
Qed.

End MoreEntry.

Section DriverSamples.
Import Demo Samples.



Lemma compile_returns_path_witness :
  result (compile article context (options true)) (workshop "T:")
    = Normal (Some "/home/me/paper/build/places.pdf") /\
  exists pre debug,
    trace (compile article context (options true)) (workshop "T:") =
    pre ++ [LogDebug debug;
            Sys (Pdflatex "/tmp/lpub/latex" "places" false) true;
            Sys (Copy "/tmp/lpub/latex/places.pdf" "/home/me/paper/build/places.pdf") true].
Proof.
  assert (result (compile article context (options true)) (workshop "T:")
          = Normal (Some "/home/me/paper/build/places.pdf")) as Hret
    by (vm_compute; reflexivity).
  split; [exact Hret|].
  destruct (compile_returns_path _ _ _ _ _ Hret) as [[Hoff _]|(_ & _ & Hcalls)].
  - discriminate Hoff.
  - exact Hcalls.
Defined.


Lemma compile_stops_on_malformed_tree_witness :
  places rawWithoutText = Throw (TypeError "node.children[0] is undefined") /\
  exists ok1 ok2 e',
    trace (compile rawWithoutText context (options true)) (machine "T:") =
      [Sys (Mkdir "/home/me/paper/build") ok1; Sys (Mkdir "/tmp/lpub/latex") ok2] /\
    result (compile rawWithoutText context (options true)) (machine "T:") = Throw e'.
Proof.
  assert (places rawWithoutText = Throw (TypeError "node.children[0] is undefined"))
    as Hthrows by (vm_compute; reflexivity).
  split; [exact Hthrows|].
  destruct (compile_stops_on_malformed_tree rawWithoutText context (options true)
              (machine "T:") _ Hthrows) as (ok1 & ok2 & e' & Htrace & Hret & _).
  by exists ok1, ok2, e'.
Defined.

Lemma compile_rejected_write_is_fatal_witness :
  Sys (WriteFile "/tmp/lpub/latex/places.tex" (VString "T:Body.A caption")) false
    ∈ trace (@compile readOnly plainArticle readOnlyContext (options true)) (machine "T:") /\
  (exists e, result (@compile readOnly plainArticle readOnlyContext (options true))
               (machine "T:") = Throw e) /\
  invocations (trace (@compile readOnly plainArticle readOnlyContext (options true))
                 (machine "T:")) = [].
Proof.
  assert (Sys (WriteFile "/tmp/lpub/latex/places.tex" (VString "T:Body.A caption")) false
    ∈ trace (@compile readOnly plainArticle readOnlyContext (options true)) (machine "T:"))
    as Hin.
  { apply list_elem_of_lookup. exists 5%nat. vm_compute. reflexivity. }
  split; [exact Hin|].
  exact (compile_rejected_write_is_fatal _ _ _ _ _ _ Hin).
Defined.

Lemma compile_failed_read_is_fatal_witness :
  Sys (ReadFile "/usr/lib/living-papers/latex-templates/article/package.json") false
    ∈ trace (compile article context (options true)) bare /\
  (exists e, result (compile article context (options true)) bare = Throw e) /\
  Forall isSetup (trace (compile article context (options true)) bare).
Proof.
  assert (Sys (ReadFile "/usr/lib/living-papers/latex-templates/article/package.json") false
    ∈ trace (compile article context (options true)) bare) as Hin.
  { apply list_elem_of_lookup. exists 3%nat. vm_compute. reflexivity. }
  split; [exact Hin|].
  apply (compile_failed_read_is_fatal _ _ _ _ _ Hin).
  vm_compute. discriminate.
Defined.

End DriverSamples.

Section RenderSamples.
Import Demo Samples.
#[local] Existing Instance Demo.host.

Lemma render_provenance_witness :
  result (render article context (options true)) (machine "T:")
    = Normal (sampleTex, articlePackage, articleContent) /\
  exists ast' places' data f tmpl w1 w2,
    places article = Normal (ast', places') /\
    sampleTex = formatter context (options true) places' /\
    renderData sampleTex context (options true) ast' = Normal data /\
    (Package.dir articlePackage = templateOf (options true) \/
     Package.dir articlePackage = builtinTemplateDir (templateOf (options true))) /\
    Sys (ReadFile (path_join (Package.dir articlePackage) "package.json")) true
      ∈ trace (render article context (options true)) (machine "T:") /\
    Package.template articlePackage = Some f /\
    fs_readFile (path_join (Package.dir articlePackage) f) w1 = (Fulfilled tmpl, w2) /\
    mustache_render tmpl data (tagsOf (options true)) = Normal articleContent.
Proof.
  assert (result (render article context (options true)) (machine "T:")
          = Normal (sampleTex, articlePackage, articleContent))
    as Hr by (vm_compute; reflexivity).
  split; [exact Hr|].
  exact (render_provenance _ _ _ _ _ _ _ Hr).
Defined.

End RenderSamples.
